(** * FTSE data server: refresh, cache and fallback engine

    A shallow embedding of [ftse_data_server_new.py] and the properties its
    specification states about it.

    Conventions of the embedding:
    - A Python [float] is a [pyfloat]: a finite value, given by the rational
      it denotes ([Q], with Python's [==] as [Qeq]), an infinity or nan.
      Arithmetic on finite values is exact: the rounding of a result to the
      nearest double and its overflow to an infinity are not modelled.
    - The snapshot dictionary [ftse_data] is a [gmap string pyval].
    - The two globals, the clock and the spawned threads are threaded
      through a state-and-exception monad [M].
    - Log output is not modelled. *)

From Stdlib Require Import ZArith QArith Qround Lqa Lia String Ascii List.
From stdpp Require Import gmap strings.

Local Open Scope Q_scope.

(** ** Numbers *)

Module Num.

(** [int(value)] on a finite float: truncation toward zero. *)
Definition py_int (q : Q) : Z := Z.quot (Qnum q) (Zpos (Qden q)).

(** [x < y] on finite floats, as a boolean. *)
Definition Qltb (x y : Q) : bool := negb (Qle_bool y x).

(** [round(x, 0)] on a finite float: the nearest whole number, ties to
    the even one. *)
Definition py_round0 (x : Q) : Q :=
  let f := Qfloor x in
  let r := x - inject_Z f in
  if Qltb r 0.5 then inject_Z f
  else if Qltb 0.5 r then inject_Z (f + 1)
  else if Z.even f then inject_Z f else inject_Z (f + 1).

(** A Python float. *)
Inductive pyfloat :=
  | Fin (q : Q)
  | Inf (negative : bool)
  | NaN.

Coercion Fin : Q >-> pyfloat.

Definition is_finite (x : pyfloat) : bool :=
  match x with Fin _ => true | _ => false end.

(** [-x]. *)
Definition fneg (x : pyfloat) : pyfloat :=
  match x with
  | Fin q => Fin (- q)
  | Inf b => Inf (negb b)
  | NaN => NaN
  end.

(** [x - y]. *)
Definition fsub (x y : pyfloat) : pyfloat :=
  match x, y with
  | Fin a, Fin b => Fin (a - b)
  | Fin _, Inf b => Inf (negb b)
  | Inf b, Fin _ => Inf b
  | Inf b1, Inf b2 => if Bool.eqb b1 b2 then NaN else Inf b1
  | _, _ => NaN
  end.

(** [x * y]. *)
Definition fmul (x y : pyfloat) : pyfloat :=
  match x, y with
  | Fin a, Fin b => Fin (a * b)
  | Fin a, Inf b | Inf b, Fin a =>
      if Qeq_bool a 0 then NaN else Inf (xorb b (Qltb a 0))
  | Inf b1, Inf b2 => Inf (xorb b1 b2)
  | _, _ => NaN
  end.

(** [x < y]: false whenever nan is involved. *)
Definition fltb (x y : pyfloat) : bool :=
  match x, y with
  | Fin a, Fin b => Qltb a b
  | Fin _, Inf b => negb b
  | Inf b, Fin _ => b
  | Inf b1, Inf b2 => b1 && negb b2
  | _, _ => false
  end.

(** [x == y]: nan is not equal to itself. *)
Definition feqb (x y : pyfloat) : bool :=
  match x, y with
  | Fin a, Fin b => Qeq_bool a b
  | Inf b1, Inf b2 => Bool.eqb b1 b2
  | _, _ => false
  end.

(** [x <= y]. *)
Definition fleb (x y : pyfloat) : bool := fltb x y || feqb x y.

(** [round(x, 0)]: infinities and nan round to themselves. *)
Definition fround0 (x : pyfloat) : pyfloat :=
  match x with
  | Fin q => Fin (py_round0 q)
  | _ => x
  end.

(** The two floats are one value; unlike [==], this holds of nan and nan. *)
Definition same (x y : pyfloat) : Prop :=
  match x, y with
  | Fin a, Fin b => a == b
  | Inf b1, Inf b2 => b1 = b2
  | NaN, NaN => True
  | _, _ => False
  end.

End Num.
Import Num.

(** ** Quantizer *)

(** The body of the [try] of [round_to_quarter] on a finite value, where
    neither [int] nor the arithmetic raises. *)
Definition round_to_quarter_try (value : Q) : Q :=
  let integer_part := py_int value in
  let decimal_part := value - inject_Z integer_part in
  if Qltb decimal_part 0.125 then inject_Z integer_part + 0
  else if Qltb decimal_part 0.375 then inject_Z integer_part + 0.25
  else if Qltb decimal_part 0.625 then inject_Z integer_part + 0.5
  else if Qltb decimal_part 0.875 then inject_Z integer_part + 0.75
  else inject_Z (integer_part + 1) + 0.

(** [round_to_quarter]: on an infinity [int(value)] raises OverflowError
    and on nan ValueError, and the handler returns [value]. *)
Definition round_to_quarter (value : pyfloat) : pyfloat :=
  match value with
  | Fin v => Fin (round_to_quarter_try v)
  | Inf _ | NaN => value
  end.

(** ** Derived values *)

Definition conversion_factor : Q := 12.28065515714918.
Definition base_tx : Q := 27556.

(** [calculate_tx_price]; no step of it raises, so its handler, which
    raises again, is never entered. *)
Definition calculate_tx_price (ftse_price : pyfloat) : pyfloat :=
  let tx_price := fmul ftse_price conversion_factor in
  fround0 tx_price.

Definition calculate_tx_change (ftse_price : pyfloat) : pyfloat :=
  let tx_price := calculate_tx_price ftse_price in
  let tx_change := fsub tx_price base_tx in
  fround0 tx_change.

(** ** Text *)

Module Str.

(** A string given by its bytes. *)
Definition bytes (l : list nat) : string :=
  fold_right (fun n s => String (ascii_of_nat n) s) EmptyString l.

(** [s.startswith(p)]. *)
Definition startswith (s p : string) : bool := String.prefix p s.

(** [p in s]. *)
Fixpoint contains (p s : string) : bool :=
  String.prefix p s ||
  match s with
  | EmptyString => false
  | String _ s' => contains p s'
  end.

(** [s.replace(old, new)], left to right over non-overlapping occurrences.
    [skip] counts the bytes of a matched occurrence still to be dropped.
    Every use in the source has a non-empty [old]. *)
Fixpoint replace_go (old new : string) (skip : nat) (s : string) : string :=
  match s with
  | EmptyString => EmptyString
  | String c s' =>
      match skip with
      | S k => replace_go old new k s'
      | O =>
          if String.prefix old s
          then String.append new (replace_go old new (String.length old - 1) s')
          else String c (replace_go old new 0 s')
      end
  end.

Definition replace (old new s : string) : string := replace_go old new 0 s.

(** The characters for which [str.isspace] holds, in UTF-8. *)
Definition whitespace : list string :=
  map bytes
    [ [9]; [10]; [11]; [12]; [13]; [28]; [29]; [30]; [31]; [32];
      [194; 133]; [194; 160]; [225; 154; 128];
      [226; 128; 128]; [226; 128; 129]; [226; 128; 130]; [226; 128; 131];
      [226; 128; 132]; [226; 128; 133]; [226; 128; 134]; [226; 128; 135];
      [226; 128; 136]; [226; 128; 137]; [226; 128; 138];
      [226; 128; 168]; [226; 128; 169]; [226; 128; 175];
      [226; 129; 159]; [227; 128; 128] ]%nat.

(** Length of the first of [pats] that starts [s], or 0. *)
Fixpoint match_len (pats : list string) (s : string) : nat :=
  match pats with
  | [] => 0
  | p :: ps => if String.prefix p s then String.length p else match_len ps s
  end.

Fixpoint lstrip_go (pats : list string) (skip : nat) (s : string) : string :=
  match s with
  | EmptyString => EmptyString
  | String _ s' =>
      match skip with
      | S k => lstrip_go pats k s'
      | O =>
          match match_len pats s with
          | O => s
          | S k => lstrip_go pats k s'
          end
      end
  end.

Definition lstrip (s : string) : string := lstrip_go whitespace 0 s.

Definition rstrip (s : string) : string :=
  String.rev (lstrip_go (map String.rev whitespace) 0 (String.rev s)).

(** [s.strip()]. *)
Definition strip (s : string) : string := rstrip (lstrip s).

End Str.

(** ** Built-in conversions *)

(** [float(text)], which either yields a float, possibly an infinity or
    nan, or raises ValueError.  Its grammar belongs to the interpreter, so
    the extractor is stated over any such conversion. *)
Class Builtins := { py_float : string -> option pyfloat }.

(** A conversion for plain literals: optional surrounding whitespace, an
    optional sign, then digits with an optional point, or one of the words
    nan, inf and infinity in either case.  Exponents and digit separators,
    which [float] also accepts, are left out: it serves to run the
    examples, and no example has them. *)
Module DecimalFloat.

Definition digit_of (c : ascii) : option Z :=
  let n := nat_of_ascii c in
  if (48 <=? n)%nat && (n <=? 57)%nat then Some (Z.of_nat n - 48)%Z else None.

(** Reads leading digits: their value, how many, and the rest. *)
Fixpoint digits (acc : Z) (count : nat) (s : string) : Z * nat * string :=
  match s with
  | EmptyString => (acc, count, s)
  | String c s' =>
      match digit_of c with
      | Some d => digits (acc * 10 + d)%Z (S count) s'
      | None => (acc, count, s)
      end
  end.

Definition lower (c : ascii) : ascii :=
  let n := nat_of_ascii c in
  if (65 <=? n)%nat && (n <=? 90)%nat then ascii_of_nat (n + 32) else c.

Fixpoint lowercase (s : string) : string :=
  match s with
  | EmptyString => EmptyString
  | String c s' => String (lower c) (lowercase s')
  end.

Definition decimal (s : string) : option Q :=
  let '(ip, n1, r1) := digits 0 0 s in
  match r1 with
  | EmptyString =>
      if (n1 =? 0)%nat then None else Some (inject_Z ip)
  | String c r2 =>
      if Ascii.eqb c "."%char then
        let '(fp, n2, r3) := digits 0 0 r2 in
        match r3 with
        | EmptyString =>
            if (n1 + n2 =? 0)%nat then None
            else Some (Qmake (ip * 10 ^ Z.of_nat n2 + fp)
                             (Z.to_pos (10 ^ Z.of_nat n2)))
        | _ => None
        end
      else None
  end.

Definition unsigned (s : string) : option pyfloat :=
  let word := lowercase s in
  if String.eqb word "nan" then Some NaN
  else if String.eqb word "inf" || String.eqb word "infinity"
  then Some (Inf false)
  else option_map Fin (decimal s).

Definition parse (text : string) : option pyfloat :=
  match Str.strip text with
  | String c rest =>
      if Ascii.eqb c "-"%char then option_map fneg (unsigned rest)
      else if Ascii.eqb c "+"%char then unsigned rest
      else unsigned (String c rest)
  | EmptyString => None
  end.

End DecimalFloat.

Definition decimal_builtins : Builtins := {| py_float := DecimalFloat.parse |}.

(** ** Local time *)

Module DateTime.

Local Open Scope Z_scope.

Record datetime := {
  year : Z; month : Z; day : Z;
  hour : Z; minute : Z; second : Z; microsecond : Z
}.

Definition is_leap (y : Z) : bool :=
  (y mod 4 =? 0) && (negb (y mod 100 =? 0) || (y mod 400 =? 0)).

Definition days_before_year (y : Z) : Z :=
  let y1 := y - 1 in y1 * 365 + y1 / 4 - y1 / 100 + y1 / 400.

Definition days_in_month (y m : Z) : Z :=
  if m =? 2 then (if is_leap y then 29 else 28)
  else if (m =? 4) || (m =? 6) || (m =? 9) || (m =? 11) then 30 else 31.

(** Days of the year before the first of month [m]. *)
Definition days_before_month (y m : Z) : Z :=
  fold_right Z.add 0
    (map (days_in_month y) (map Z.of_nat (seq 1 (Z.to_nat (m - 1))))).

Definition toordinal (d : datetime) : Z :=
  days_before_year (year d) + days_before_month (year d) (month d) + day d.

(** [now.weekday()]: Monday is 0, Sunday is 6. *)
Definition weekday (d : datetime) : Z := (toordinal d + 6) mod 7.

(** [now.replace(hour=h, minute=m, second=s, microsecond=us)]. *)
Definition replace (d : datetime) (h m s us : Z) : datetime :=
  {| year := year d; month := month d; day := day d;
     hour := h; minute := m; second := s; microsecond := us |}.

Definition fields (d : datetime) : list Z :=
  [year d; month d; day d; hour d; minute d; second d; microsecond d].

(** Comparison of two instants of one time zone: field by field. *)
Fixpoint lex_le (a b : list Z) : bool :=
  match a, b with
  | x :: a', y :: b' => (x <? y) || ((x =? y) && lex_le a' b')
  | _, _ => true
  end.

Definition le (a b : datetime) : bool := lex_le (fields a) (fields b).

(** Time of day in microseconds since midnight. *)
Definition time_of_day (d : datetime) : Z :=
  ((hour d * 60 + minute d) * 60 + second d) * 1000000 + microsecond d.

Definition valid_time (d : datetime) : Prop :=
  0 <= hour d < 24 /\ 0 <= minute d < 60 /\ 0 <= second d < 60 /\
  0 <= microsecond d < 1000000.

Definition digit (n : Z) : ascii := ascii_of_nat (48 + Z.to_nat (n mod 10)).

Definition pad2 (n : Z) : string :=
  String (digit (n / 10)) (String (digit n) EmptyString).

Definition pad4 (n : Z) : string :=
  String (digit (n / 1000)) (String (digit (n / 100)) (pad2 n)).

(** [strftime('%Y-%m-%d %H:%M:%S')]. *)
Definition strftime (d : datetime) : string :=
  (pad4 (year d) ++ "-" ++ pad2 (month d) ++ "-" ++ pad2 (day d) ++ " " ++
   pad2 (hour d) ++ ":" ++ pad2 (minute d) ++ ":" ++ pad2 (second d))%string.

End DateTime.
Export DateTime(datetime).

(** The decision of [is_market_hours] on the instant it read. *)
Definition market_open (now : datetime) : bool :=
  if (5 <=? DateTime.weekday now)%Z then false
  else
    let market_start := DateTime.replace now 8 45 0 0 in
    let market_end := DateTime.replace now 13 45 0 0 in
    DateTime.le market_start now && DateTime.le now market_end.

(** ** Values, exceptions and the fetched page *)

Inductive pyval :=
  | VStr (s : string)
  | VNum (x : pyfloat)
  | VBool (b : bool).

(** The exceptions the refresh distinguishes; each carries [str(e)]. *)
Inductive exn :=
  | RequestException (msg : string)
  | ValueError (msg : string)
  | AttributeError (msg : string)
  | FTSEDataError (msg : string)
  | OtherException (msg : string).

Definition exn_str (e : exn) : string :=
  match e with
  | RequestException m | ValueError m | AttributeError m
  | FTSEDataError m | OtherException m => m
  end.

Inductive outcome (A : Type) :=
  | Ok (a : A)
  | Raise (e : exn).
Arguments Ok {A} a.
Arguments Raise {A} e.

(** An element of the page: its [.text] and its [class] attribute. *)
Record tag := { text : string; class_attr : option (list string) }.

(** The [ul.priceinfo] region, seen through the queries the extractor
    makes.  For each labelled span: [None] when the span with that id is
    absent, [Some None] when it has no inner span of class [clr-rd] or
    [clr-gr], [Some (Some el)] for the inner span found. *)
Record price_info := {
  Price1_lbTPrice : option (option tag);
  Price1_lbTChange : option (option tag);
  Price1_lbTPercent : option (option tag)
}.

(** What [requests.get], [raise_for_status] and [BeautifulSoup] yield:
    the exception of a failed request, the exception [BeautifulSoup] raised
    (a ValueError when the parser library is missing), or the document. *)
Inductive fetched :=
  | RequestFailed (msg : string)
  | SoupFailed (e : exn)
  | Soup (priceinfo : option price_info).

(** ** The environment and the store *)

(** Readings of the outside world, indexed by the number of readings made
    so far. *)
Record environment := {
  time_time : nat -> Q;
  taipei_now : nat -> datetime;
  local_strftime : nat -> string;
  requests_get : nat -> fetched
}.

(** The module globals [ftse_data] and [last_update_time], the count of
    readings made, and the count of refresh threads started. *)
Record world := {
  ftse_data : option (gmap string pyval);
  last_update_time : Q;
  ticks : nat;
  threads : nat
}.

Definition init_world : world :=
  {| ftse_data := None; last_update_time := 0; ticks := 0; threads := 0 |}.

(** Truth value of [ftse_data]: [None] and the empty dict are false. *)
Definition truthy (d : option (gmap string pyval)) : bool :=
  match d with
  | None => false
  | Some m => negb (bool_decide (dom m = ∅))
  end.

(** ** The monad of the server's code: state and exceptions *)

Definition M (A : Type) : Type := world -> outcome A * world.

Definition ret {A} (a : A) : M A := fun w => (Ok a, w).

Definition raise {A} (e : exn) : M A := fun w => (Raise e, w).

Definition bind {A B} (c : M A) (k : A -> M B) : M B :=
  fun w =>
    match c w with
    | (Ok a, w') => k a w'
    | (Raise e, w') => (Raise e, w')
    end.

Notation "'do' x <- c ; k" := (bind c (fun x => k))
  (at level 10, x name, c at level 100, k at level 200).
Notation "'run' c ; k" := (bind c (fun _ => k))
  (at level 10, c at level 100, k at level 200).

(** [try: body  except ...: handler]; the handler answers [None] for an
    exception no clause matches, which then propagates. *)
Definition try_except {A} (body : M A) (handler : exn -> option (M A)) : M A :=
  fun w =>
    match body w with
    | (Ok a, w') => (Ok a, w')
    | (Raise e, w') =>
        match handler e with
        | Some h => h w'
        | None => (Raise e, w')
        end
    end.

Definition lift {A} (o : outcome A) : M A := fun w => (o, w).

Definition get_world : M world := fun w => (Ok w, w).

Definition tick (w : world) : world :=
  {| ftse_data := ftse_data w; last_update_time := last_update_time w;
     ticks := S (ticks w); threads := threads w |}.

Definition set_ftse_data (d : option (gmap string pyval)) : M unit :=
  fun w => (Ok tt, {| ftse_data := d; last_update_time := last_update_time w;
                      ticks := ticks w; threads := threads w |}).

Definition set_last_update_time (t : Q) : M unit :=
  fun w => (Ok tt, {| ftse_data := ftse_data w; last_update_time := t;
                      ticks := ticks w; threads := threads w |}).

(** [threading.Thread(target=get_ftse_data_from_histock, daemon=True).start()]:
    the thread is recorded; its body runs as a later refresh. *)
Definition start_refresh_thread : M unit :=
  fun w => (Ok tt, {| ftse_data := ftse_data w;
                      last_update_time := last_update_time w;
                      ticks := ticks w; threads := S (threads w) |}).

(** ** The server's functions *)

Local Open Scope string_scope.

Section Server.

Context `{Builtins} (env : environment).

(** [time.time()]. *)
Definition now_epoch : M Q :=
  fun w => (Ok (time_time env (ticks w)), tick w).

(** [get_taipei_time()]. *)
Definition get_taipei_time : M datetime :=
  fun w => (Ok (taipei_now env (ticks w)), tick w).

(** [time.strftime('%Y-%m-%d %H:%M:%S', time.localtime())]. *)
Definition server_strftime : M string :=
  fun w => (Ok (local_strftime env (ticks w)), tick w).

Definition is_market_hours : M bool :=
  do now <- get_taipei_time;
  ret (market_open now).

(** [float(text)] as a step that may raise. *)
Definition float_of (s : string) : outcome pyfloat :=
  match py_float s with
  | Some v => Ok v
  | None => Raise (ValueError "could not convert string to float")
  end.

(** [el.get('class', [''])[0]]. *)
Definition first_class (el : tag) : outcome string :=
  match class_attr el with
  | None => Ok ""
  | Some [] => Raise (OtherException "list index out of range")
  | Some (c :: _) => Ok c
  end.

(** [price_info.find('span', id=...).find('span', class_=[...])] followed
    by the [if not element: raise FTSEDataError(missing)] test. *)
Definition find_element (q : option (option tag)) (missing : string)
  : outcome tag :=
  match q with
  | None => Raise (AttributeError "'NoneType' object has no attribute 'find'")
  | Some None => Raise (FTSEDataError missing)
  | Some (Some el) => Ok el
  end.

Definition obind {A B} (o : outcome A) (k : A -> outcome B) : outcome B :=
  match o with
  | Ok a => k a
  | Raise e => Raise e
  end.

(** [except (ValueError, AttributeError): raise FTSEDataError(msg)]. *)
Definition reraise_parse {A} (o : outcome A) (msg : string) : outcome A :=
  match o with
  | Raise (ValueError _) | Raise (AttributeError _) => Raise (FTSEDataError msg)
  | _ => o
  end.

Definition extract_price (pi : price_info) : outcome pyfloat :=
  reraise_parse
    (obind (find_element (Price1_lbTPrice pi) "無法找到價格元素")
       (fun price_element =>
        obind (float_of (Str.replace "," "" (Str.strip (text price_element))))
          (fun price => Ok (round_to_quarter price))))
    "無法解析價格".

Definition extract_change (pi : price_info) : outcome pyfloat :=
  reraise_parse
    (obind (find_element (Price1_lbTChange pi) "無法找到漲跌元素")
       (fun change_element =>
        let change_text := Str.strip (text change_element) in
        obind (float_of (Str.replace "," "" (Str.replace "▲" ""
                           (Str.replace "▼" "" change_text))))
          (fun change =>
           if negb (Str.startswith change_text "-") then
             if Str.contains "▼" change_text then Ok (fneg change)
             else
               obind (first_class change_element)
                 (fun c => if String.eqb c "clr-gr" then Ok (fneg change)
                           else Ok change)
           else Ok change)))
    "無法解析漲跌".

Definition extract_percent (pi : price_info) : outcome pyfloat :=
  reraise_parse
    (obind (find_element (Price1_lbTPercent pi) "無法找到漲跌百分比元素")
       (fun percent_element =>
        let percent_text :=
          Str.replace "%" "" (Str.strip (text percent_element)) in
        obind (float_of percent_text)
          (fun change_percent =>
           if negb (Str.startswith percent_text "-") then
             if Str.contains "▼" (text percent_element)
             then Ok (fneg change_percent)
             else
               obind (first_class percent_element)
                 (fun c => if String.eqb c "clr-gr"
                           then Ok (fneg change_percent)
                           else Ok change_percent)
           else Ok change_percent)))
    "無法解析漲跌百分比".

(** The dictionary built by [update_ftse_data]. *)
Definition live_data (price change change_percent : pyfloat)
    (source : string) (tx_price tx_change : pyfloat) (current_time : Q)
    (taipei_time : string)
    (open : bool) : gmap string pyval :=
  <["code" := VStr "TWN"]> (
  <["name" := VStr "富時台指"]> (
  <["price" := VNum price]> (
  <["change" := VNum change]> (
  <["changePercent" := VNum change_percent]> (
  <["timestamp" := VNum current_time]> (
  <["taipei_time" := VStr taipei_time]> (
  <["source" := VStr source]> (
  <["tx_price" := VNum tx_price]> (
  <["tx_change" := VNum tx_change]> (
  <["is_market_hours" := VBool open]> ∅)))))))))).

Definition update_ftse_data (price change change_percent : pyfloat)
    (source : string) (tx_price tx_change : pyfloat) : M unit :=
  do current_time <- now_epoch;
  do taipei <- get_taipei_time;
  let taipei_time := DateTime.strftime taipei in
  do open <- is_market_hours;
  run set_ftse_data
    (Some (live_data price change change_percent source tx_price tx_change
             current_time taipei_time open));
  set_last_update_time current_time.

Definition default_price : Q := 1637.5.

(** The dictionary built on the default path of [handle_data_error]. *)
Definition default_data (error_message : string) (timestamp : Q)
    (taipei_time : string) (open : bool) : gmap string pyval :=
  <["code" := VStr "TWN"]> (
  <["name" := VStr "富時台指"]> (
  <["price" := VNum default_price]> (
  <["change" := VNum (-68.3)]> (
  <["changePercent" := VNum (-4.0)]> (
  <["timestamp" := VNum timestamp]> (
  <["taipei_time" := VStr taipei_time]> (
  <["source" := VStr "預設數據"]> (
  <["tx_price" := VNum (calculate_tx_price default_price)]> (
  <["tx_change" := VNum (calculate_tx_change default_price)]> (
  <["error" := VStr error_message]> (
  <["is_market_hours" := VBool open]> ∅))))))))))).

Definition use_default (error_message : string) : M bool :=
  do timestamp <- now_epoch;
  do taipei <- get_taipei_time;
  do open <- is_market_hours;
  run set_ftse_data
    (Some (default_data error_message timestamp
             (DateTime.strftime taipei) open));
  do t <- now_epoch;
  run set_last_update_time t;
  ret false.

Definition handle_data_error (error_message : string) : M bool :=
  do w <- get_world;
  match ftse_data w with
  | Some data =>
      if truthy (ftse_data w) then
        do now <- now_epoch;
        if Qltb (now - last_update_time w) 300 then
          run set_ftse_data (Some (<["error" := VStr error_message]> data));
          ret true
        else use_default error_message
      else use_default error_message
  | None => use_default error_message
  end.

(** The body of the outer [try] of [get_ftse_data_from_histock]. *)
Definition fetch_and_update : M bool :=
  do timestamp <- now_epoch;
  do response <- (fun w => (Ok (requests_get env (ticks w)), tick w));
  match response with
  | RequestFailed msg => raise (RequestException msg)
  | SoupFailed e => raise e
  | Soup None => raise (FTSEDataError "無法找到價格資訊區域")
  | Soup (Some price_info) =>
      do price <- lift (extract_price price_info);
      do change <- lift (extract_change price_info);
      do change_percent <- lift (extract_percent price_info);
      let adjusted_price := price in
      let tx_price := calculate_tx_price adjusted_price in
      let tx_change := calculate_tx_change adjusted_price in
      run update_ftse_data adjusted_price change change_percent
            "HiStock網站" tx_price tx_change;
      ret true
  end.

Definition get_ftse_data_from_histock : M bool :=
  try_except fetch_and_update
    (fun e =>
       Some match e with
            | RequestException m => handle_data_error ("網絡錯誤: " ++ m)
            | ValueError m => handle_data_error ("數據格式錯誤: " ++ m)
            | FTSEDataError m => handle_data_error m
            | AttributeError m | OtherException m =>
                handle_data_error ("系統錯誤: " ++ m)
            end).

Definition get_ftse_data : M (option (gmap string pyval)) :=
  do w <- get_world;
  if truthy (ftse_data w) then
    do open <- is_market_hours;
    let update_interval : Q := if open then 20 else 300 in
    do now <- now_epoch;
    run (if Qltb update_interval (now - last_update_time w)
         then start_refresh_thread else ret tt);
    ret (ftse_data w)
  else
    run get_ftse_data_from_histock;
    do w' <- get_world;
    ret (ftse_data w').

(** [data[key]] on what [get_ftse_data] returned. *)
Definition subscript (data : option (gmap string pyval)) (key : string)
  : outcome pyval :=
  match data with
  | None => Raise (OtherException "'NoneType' object is not subscriptable")
  | Some d =>
      match d !! key with
      | Some v => Ok v
      | None => Raise (OtherException ("'" ++ key ++ "'"))
      end
  end.

(** [data[key] = v].  The object [get_ftse_data] returned is the dictionary
    the global [ftse_data] refers to, so the assignment is seen in the
    store. *)
Definition setitem (key : string) (v : pyval) : M unit :=
  do w <- get_world;
  match ftse_data w with
  | None =>
      raise (OtherException "'NoneType' object does not support item assignment")
  | Some d => set_ftse_data (Some (<[key := v]> d))
  end.

(** The handler of [/api/ftse]; [force_refresh] is the parsed query
    argument, the answer is the payload with its status code. *)
Definition api_get_ftse_data (force_refresh : bool)
  : M (gmap string pyval * Z) :=
  try_except
    (do data <- get_ftse_data;
     do stale <-
       (if force_refresh then ret true
        else
          do now <- now_epoch;
          do ts <- lift (subscript data "timestamp");
          match ts with
          | VNum ts =>
              do open <- is_market_hours;
              ret (fltb (if open then 20 else 300) (fsub now ts))
          | _ => raise (OtherException "unsupported operand type(s) for -")
          end);
     run (if stale : bool then
            run get_ftse_data_from_histock;
            run get_ftse_data;
            ret tt
          else ret tt);
     do request_time <- now_epoch;
     run setitem "request_time" (VNum request_time);
     do server_time <- server_strftime;
     run setitem "server_time" (VStr server_time);
     do w <- get_world;
     ret (default ∅ (ftse_data w), 200%Z))
    (fun e =>
       Some (do timestamp <- now_epoch;
             do server_time <- server_strftime;
             ret (<["error" := VStr (exn_str e)]> (
                  <["timestamp" := VNum timestamp]> (
                  <["server_time" := VStr server_time]> ∅)), 500%Z))).

(** One turn of the loop of [run_background_update]: the interval is
    chosen, the thread sleeps, then refreshes. *)
Definition background_turn : M bool :=
  run is_market_hours;
  get_ftse_data_from_histock.

(** The states the server passes through.  Each call runs to its end
    before the next starts; [reach_tick] is a reading of the environment,
    so that the states part-way through a call, between its readings, are
    included. *)
Inductive reachable : world -> Prop :=
  | reach_start : reachable init_world
  | reach_tick w : reachable w -> reachable (tick w)
  | reach_refresh w :
      reachable w -> reachable (snd (get_ftse_data_from_histock w))
  | reach_background w :
      reachable w -> reachable (snd (background_turn w))
  | reach_read w :
      reachable w -> reachable (snd (get_ftse_data w))
  | reach_api w force_refresh :
      reachable w -> reachable (snd (api_get_ftse_data force_refresh w)).

(** Later readings of [time.time()] are not earlier. *)
Definition clock_monotone : Prop :=
  forall n m, (n <= m)%nat -> (time_time env n <= time_time env m)%Q.

End Server.

(** The fractional part of a result, by the split the quantizer uses. *)
Definition fractional_part (r : Q) : Q := (r - inject_Z (py_int r))%Q.

Local Close Scope string_scope.

(** ** Notions used by the statements *)

Section Statements.

Context `{Builtins}.
Local Open Scope string_scope.

(** The region of a page whose three labelled spans were all found. *)
Definition region (price change percent : tag) : price_info :=
  {| Price1_lbTPrice := Some (Some price);
     Price1_lbTChange := Some (Some change);
     Price1_lbTPercent := Some (Some percent) |}.

Definition span (t c : string) : tag := {| text := t; class_attr := Some [c] |}.

(** The price field cannot be located or cannot be parsed. *)
Definition price_fails (pi : price_info) : Prop :=
  match Price1_lbTPrice pi with
  | None | Some None => True
  | Some (Some el) =>
      py_float (Str.replace "," "" (Str.strip (text el))) = None
  end.

Definition price_messages : list string :=
  ["無法找到價格元素"; "無法解析價格"].

Definition other_field_messages : list string :=
  ["無法找到價格資訊區域"; "無法找到漲跌元素"; "無法解析漲跌";
   "無法找到漲跌百分比元素"; "無法解析漲跌百分比"].

(** The message each [except] clause of the refresh hands to the
    fallback handler. *)
Definition error_message_of (e : exn) : string :=
  match e with
  | RequestException m => "網絡錯誤: " ++ m
  | ValueError m => "數據格式錯誤: " ++ m
  | FTSEDataError m => m
  | AttributeError m | OtherException m => "系統錯誤: " ++ m
  end.

(** The price of the current snapshot is nan, or a value that [==] its
    own quantization. *)
Definition price_quantized (d : option (gmap string pyval)) (_ : Q) : Prop :=
  forall m, d = Some m ->
    exists price : pyfloat,
      m !! "price" = Some (VNum price) /\
      (price = NaN \/ feqb (round_to_quarter price) price = true).

(** The current snapshot is a non-empty dictionary whose capture time is not
    later than the last write time. *)
Definition captured_before_write (d : option (gmap string pyval)) (lut : Q)
  : Prop :=
  forall m, d = Some m ->
    truthy (Some m) = true /\
    exists ts : Q, m !! "timestamp" = Some (VNum ts) /\ ts <= lut.

(** A property [I] of the two globals. *)
Section Assertions.

Variable I : option (gmap string pyval) -> Q -> Prop.

Definition holds (w : world) : Prop := I (ftse_data w) (last_update_time w).

(** [c] keeps the property, and a value it returns satisfies [post]. *)
Definition triple {A} (c : M A) (post : A -> Prop) : Prop :=
  forall w, holds w ->
    holds (snd (c w)) /\
    match fst (c w) with Ok a => post a | Raise _ => True end.

Definition anything {A} : A -> Prop := fun _ => True.

End Assertions.

End Statements.

(** ** Sample instants and a sample run *)

Section Samples.

Import DateTime.
Local Open Scope Z_scope.

Definition tuesday (h m s : Z) : datetime :=
  {| year := 2024; month := 1; day := 2;
     hour := h; minute := m; second := s; microsecond := 0 |}.

Definition saturday (h m s : Z) : datetime :=
  {| year := 2024; month := 1; day := 6;
     hour := h; minute := m; second := s; microsecond := 0 |}.

Definition sunday (h m s : Z) : datetime :=
  {| year := 2024; month := 1; day := 7;
     hour := h; minute := m; second := s; microsecond := 0 |}.

End Samples.

Section Run.

Local Open Scope string_scope.
Local Existing Instance decimal_builtins.

Definition good_page : fetched :=
  Soup (Some (region (span "1,637.13" "clr-gr") (span "▼68.30" "clr-gr")
                (span "-4.00%" "clr-gr"))).

(** A page whose price text is not a number, its other fields in order. *)
Definition bad_price_page : fetched :=
  Soup (Some (region (span "n/a" "clr-gr") (span "▼68.30" "clr-gr")
                (span "-4.00%" "clr-gr"))).

(** The first refresh reads the clock at 1000 and fetches [good_page];
    every later reading of the clock gives [later] and every later fetch
    gives [second].  It is a Tuesday morning throughout. *)
Definition scenario (later : Q) (second : fetched) : environment :=
  {| time_time := fun n => if (n <? 5)%nat then 1000 else later;
     taipei_now := fun _ => tuesday 9 0 0;
     local_strftime := fun _ => "2024-01-02 09:00:00";
     requests_get := fun n => if (n <? 5)%nat then good_page else second |}.

(** The state after the first refresh. *)
Definition first_fetch (later : Q) (second : fetched) : world :=
  snd (get_ftse_data_from_histock (scenario later second) init_world).

(** A page whose price text is nan, its other fields in order. *)
Definition nan_price_page : fetched :=
  Soup (Some (region (span "nan" "clr-gr") (span "▼68.30" "clr-gr")
                (span "-4.00%" "clr-gr"))).

(** Every fetch times out.  The clock reads 1400 up to the timestamp of the
    default snapshot of the first refresh, 1400.001 when that refresh
    records its write, and 1700.0005 when the handler of the second
    refresh reads it. *)
Definition sliver : environment :=
  {| time_time := fun n => if (n <? 5)%nat then 1400
                           else if (n <? 8)%nat then 1400.001
                           else 1700.0005;
     taipei_now := fun _ => tuesday 9 0 0;
     local_strftime := fun _ => "2024-01-02 09:00:00";
     requests_get := fun _ => RequestFailed "timeout" |}.

(** As [scenario], with the clock advancing by [step] at every reading. *)
Definition ramp (step : Q) (second : fetched) : environment :=
  {| time_time := fun n => 1000 + step * inject_Z (Z.of_nat n);
     taipei_now := fun _ => tuesday 9 0 0;
     local_strftime := fun _ => "2024-01-02 09:00:00";
     requests_get := fun n => if (n <? 5)%nat then good_page else second |}.

End Run.

(** ** Notions used by the further properties *)

Section MoreStatements.

Context `{Builtins}.
Local Open Scope string_scope.

Definition change_messages : list string :=
  ["無法找到漲跌元素"; "無法解析漲跌"].

Definition percent_messages : list string :=
  ["無法找到漲跌百分比元素"; "無法解析漲跌百分比"].

(** The change field cannot be located or cannot be parsed. *)
Definition change_fails (pi : price_info) : Prop :=
  match Price1_lbTChange pi with
  | None | Some None => True
  | Some (Some el) =>
      py_float (Str.replace "," "" (Str.replace "▲" ""
                  (Str.replace "▼" "" (Str.strip (text el))))) = None
  end.

(** The percent field cannot be located or cannot be parsed. *)
Definition percent_fails (pi : price_info) : Prop :=
  match Price1_lbTPercent pi with
  | None | Some None => True
  | Some (Some el) =>
      py_float (Str.replace "%" "" (Str.strip (text el))) = None
  end.

(** The keys every snapshot is built with. *)
Definition snapshot_keys : list string :=
  ["code"; "name"; "price"; "change"; "changePercent"; "timestamp";
   "taipei_time"; "source"; "tx_price"; "tx_change"; "is_market_hours"].

(** From a state satisfying [P], [c] returns without raising, in a state
    and with a value related by [Q]. *)
Definition total {A} (P : world -> Prop) (c : M A)
    (Q : A -> world -> Prop) : Prop :=
  forall w, P w -> exists a w', c w = (Ok a, w') /\ Q a w'.

(** The derived fields of the current snapshot are those of its price. *)
Definition derived_from_price (d : option (gmap string pyval)) (_ : Q)
  : Prop :=
  forall m, d = Some m ->
    exists price,
      m !! "price" = Some (VNum price) /\
      m !! "tx_price" = Some (VNum (calculate_tx_price price)) /\
      m !! "tx_change" = Some (VNum (calculate_tx_change price)).

(** The current snapshot names the index, and is either of the live source
    or the default snapshot with its fixed numbers and an error. *)
Definition provenance (d : option (gmap string pyval)) (_ : Q) : Prop :=
  forall m, d = Some m ->
    m !! "code" = Some (VStr "TWN") /\
    m !! "name" = Some (VStr "富時台指") /\
    (m !! "source" = Some (VStr "HiStock網站") \/
     (m !! "source" = Some (VStr "預設數據") /\
      m !! "price" = Some (VNum default_price) /\
      m !! "change" = Some (VNum (-68.3)) /\
      m !! "changePercent" = Some (VNum (-4.0)) /\
      is_Some (m !! "error"))).

(** The capture time of a live snapshot is the last write time. *)
Definition live_clocks_agree (d : option (gmap string pyval)) (lut : Q)
  : Prop :=
  forall m, d = Some m ->
    m !! "source" = Some (VStr "HiStock網站") ->
    m !! "timestamp" = Some (VNum lut).

(** The current snapshot has every key it was built with, and a number
    under ['timestamp']. *)
Definition keys_present (d : option (gmap string pyval)) (_ : Q) : Prop :=
  forall m, d = Some m ->
    Forall (fun k => is_Some (m !! k)) snapshot_keys /\
    exists ts : Q, m !! "timestamp" = Some (VNum ts).

(** A snapshot with a number under ['timestamp']. *)
Definition has_timestamp (m : gmap string pyval) : Prop :=
  exists ts : Q, m !! "timestamp" = Some (VNum ts).

(** If a snapshot is current, it has its timestamp. *)
Definition timestamp_sound (w : world) : Prop :=
  forall m, ftse_data w = Some m -> has_timestamp m.

(** A snapshot is current, and has its timestamp. *)
Definition snapshot_ready (w : world) : Prop :=
  exists m, ftse_data w = Some m /\ has_timestamp m.

End MoreStatements.

(** * Properties *)

(** ** Arithmetic of the model *)

Section NumFacts.

Lemma Qltb_lt x y : Qltb x y = true <-> x < y.
Proof.
  unfold Qltb. rewrite negb_true_iff. split.
  - intros H. apply Qnot_le_lt. intros Hle.
    apply Qle_bool_iff in Hle. congruence.
  - intros H. destruct (Qle_bool y x) eqn:E; [|reflexivity].
    apply Qle_bool_iff in E. exfalso. apply (Qlt_not_le _ _ H E).
Qed.

Lemma Qltb_ge x y : Qltb x y = false <-> y <= x.
Proof.
  unfold Qltb. rewrite negb_false_iff. apply Qle_bool_iff.
Qed.

Lemma py_int_nonneg q : 0 <= q -> py_int q = Qfloor q.
Proof.
  destruct q as [n d]. unfold Qle, py_int, Qfloor. simpl. intros H.
  apply Z.quot_div_nonneg; lia.
Qed.

Lemma py_int_nonpos q : q <= 0 -> py_int q = (- Qfloor (- q))%Z.
Proof.
  destruct q as [n d]. unfold Qle, py_int, Qfloor. simpl. intros H.
  replace n with (- (- n))%Z at 1 by lia.
  rewrite Z.quot_opp_l by lia. f_equal.
  apply Z.quot_div_nonneg; lia.
Qed.

Lemma py_int_inject (n : Z) : py_int (inject_Z n) = n.
Proof. unfold py_int. simpl. apply Z.quot_1_r. Qed.

Lemma py_int_comp x y : x == y -> py_int x = py_int y.
Proof.
  intros H. destruct (Qlt_le_dec x 0) as [Hx|Hx].
  - rewrite !py_int_nonpos by lra.
    f_equal. apply Qfloor_comp. lra.
  - rewrite !py_int_nonneg by lra.
    apply Qfloor_comp, H.
Qed.

Lemma Qfloor_unique (q : Q) (n : Z) :
  inject_Z n <= q -> q < inject_Z n + 1 -> Qfloor q = n.
Proof.
  intros H1 H2.
  pose proof (Qfloor_le q) as F1. pose proof (Qlt_floor q) as F2.
  rewrite inject_Z_plus in F2. change (inject_Z 1) with 1 in F2.
  assert (inject_Z n < inject_Z (Qfloor q) + 1) as A by lra.
  assert (inject_Z (Qfloor q) < inject_Z n + 1) as B by lra.
  change 1 with (inject_Z 1) in A, B. rewrite <- inject_Z_plus in A, B.
  rewrite <- Zlt_Qlt in A, B. lia.
Qed.

Lemma py_int_unique_nonneg (q : Q) (n : Z) :
  (0 <= n)%Z -> inject_Z n <= q -> q < inject_Z n + 1 -> py_int q = n.
Proof.
  intros Hn H1 H2.
  assert (0 <= inject_Z n) by (change 0 with (inject_Z 0); now rewrite <- Zle_Qle).
  rewrite py_int_nonneg by lra. now apply Qfloor_unique.
Qed.

(** The split into integer and fractional part, for a non-negative value. *)
Lemma py_int_split_nonneg q :
  0 <= q -> (0 <= py_int q)%Z /\ 0 <= q - inject_Z (py_int q) < 1.
Proof.
  intros H. rewrite py_int_nonneg by assumption.
  pose proof (Qfloor_le q) as F1. pose proof (Qlt_floor q) as F2.
  rewrite inject_Z_plus in F2. change (inject_Z 1) with 1 in F2.
  split; [|lra].
  change 0%Z with (Qfloor 0). now apply Qfloor_resp_le.
Qed.

(** For a non-positive value the "fractional part" is in (-1, 0]. *)
Lemma py_int_split_nonpos q :
  q <= 0 -> (py_int q <= 0)%Z /\ -1 < q - inject_Z (py_int q) <= 0.
Proof.
  intros H. rewrite py_int_nonpos by assumption.
  pose proof (Qfloor_le (- q)) as F1. pose proof (Qlt_floor (- q)) as F2.
  rewrite inject_Z_plus in F2. change (inject_Z 1) with 1 in F2.
  rewrite inject_Z_opp.
  split; [|lra].
  assert (Qfloor 0 <= Qfloor (- q))%Z by (apply Qfloor_resp_le; lra).
  change (Qfloor 0) with 0%Z in *. lia.
Qed.

Lemma py_round0_inject (n : Z) : py_round0 (inject_Z n) = inject_Z n.
Proof.
  unfold py_round0. rewrite Qfloor_Z.
  assert (Qltb (inject_Z n - inject_Z n) 0.5 = true) as ->; [|reflexivity].
  apply Qltb_lt. lra.
Qed.

Lemma py_round0_comp x y : x == y -> py_round0 x = py_round0 y.
Proof.
  intros H. unfold py_round0. rewrite (Qfloor_comp _ _ H).
  set (f := Qfloor y).
  assert (Qltb (x - inject_Z f) 0.5 = Qltb (y - inject_Z f) 0.5) as ->.
  { unfold Qltb. f_equal. apply eq_true_iff_eq. rewrite !Qle_bool_iff.
    now rewrite H. }
  assert (Qltb 0.5 (x - inject_Z f) = Qltb 0.5 (y - inject_Z f)) as ->.
  { unfold Qltb. f_equal. apply eq_true_iff_eq. rewrite !Qle_bool_iff.
    now rewrite H. }
  reflexivity.
Qed.

End NumFacts.

(** ** Quantizer *)

Section Quantizer.

Lemma Qltb_comp x x' y y' : x == x' -> y == y' -> Qltb x y = Qltb x' y'.
Proof.
  intros Hx Hy. apply eq_true_iff_eq. rewrite !Qltb_lt.
  now rewrite Hx, Hy.
Qed.

(** How [round_to_quarter_try] acts on each range of the fractional part. *)
Lemma round_to_quarter_ranges (v : Q) :
  let i := inject_Z (py_int v) in
  let d := v - i in
  (d < 0.125 -> round_to_quarter_try v == i) /\
  (0.125 <= d < 0.375 -> round_to_quarter_try v == i + 0.25) /\
  (0.375 <= d < 0.625 -> round_to_quarter_try v == i + 0.5) /\
  (0.625 <= d < 0.875 -> round_to_quarter_try v == i + 0.75) /\
  (0.875 <= d -> round_to_quarter_try v == i + 1).
Proof.
  intros i d. unfold round_to_quarter_try. fold i. fold d.
  destruct (Qltb d 0.125) eqn:E1;
    [apply Qltb_lt in E1 | apply Qltb_ge in E1];
  (destruct (Qltb d 0.375) eqn:E2;
    [apply Qltb_lt in E2 | apply Qltb_ge in E2]);
  (destruct (Qltb d 0.625) eqn:E3;
    [apply Qltb_lt in E3 | apply Qltb_ge in E3]);
  (destruct (Qltb d 0.875) eqn:E4;
    [apply Qltb_lt in E4 | apply Qltb_ge in E4]);
  repeat split; intros; try lra;
  unfold i; rewrite inject_Z_plus; change (inject_Z 1) with 1; lra.
Qed.

Lemma round_to_quarter_comp x y :
  x == y -> round_to_quarter_try x == round_to_quarter_try y.
Proof.
  intros E. unfold round_to_quarter_try. rewrite (py_int_comp _ _ E).
  set (i := py_int y).
  rewrite (Qltb_comp (x - inject_Z i) (y - inject_Z i) 0.125 0.125),
          (Qltb_comp (x - inject_Z i) (y - inject_Z i) 0.375 0.375),
          (Qltb_comp (x - inject_Z i) (y - inject_Z i) 0.625 0.625),
          (Qltb_comp (x - inject_Z i) (y - inject_Z i) 0.875 0.875)
    by (rewrite ?E; reflexivity).
  reflexivity.
Qed.

(** The shapes a result can have: a whole number, or a non-negative whole
    number plus one, two or three quarters. *)
Lemma round_to_quarter_shape (v : Q) :
  (exists n : Z, round_to_quarter_try v == inject_Z n) \/
  (exists n : Z, (0 <= n)%Z /\
     (round_to_quarter_try v == inject_Z n + 0.25 \/
      round_to_quarter_try v == inject_Z n + 0.5 \/
      round_to_quarter_try v == inject_Z n + 0.75)).
Proof.
  pose proof (round_to_quarter_ranges v) as (R0 & R1 & R2 & R3 & R4).
  cbv zeta in *. set (i := py_int v) in *. set (d := v - inject_Z i) in *.
  destruct (Qlt_le_dec d 0.125) as [L|L].
  { left. exists i. auto. }
  assert (0 <= i)%Z as Hi.
  { destruct (Qlt_le_dec v 0) as [Hv|Hv].
    - destruct (py_int_split_nonpos v) as [_ [_ B]]; [lra|].
      fold i in B. fold d in B. lra.
    - now destruct (py_int_split_nonneg v Hv). }
  destruct (Qlt_le_dec d 0.375); [right; exists i; split; auto; left; apply R1; lra|].
  destruct (Qlt_le_dec d 0.625); [right; exists i; split; auto; right; left; apply R2; lra|].
  destruct (Qlt_le_dec d 0.875); [right; exists i; split; auto; right; right; apply R3; lra|].
  left. exists (i + 1)%Z. rewrite inject_Z_plus. auto.
Qed.

Lemma py_int_quarters (n : Z) (c : Q) :
  (0 <= n)%Z -> 0 <= c < 1 -> py_int (inject_Z n + c) = n.
Proof. intros Hn Hc. apply py_int_unique_nonneg; [assumption | lra | lra]. Qed.

Lemma fractional_part_comp x y :
  x == y -> fractional_part x == fractional_part y.
Proof.
  intros E. unfold fractional_part. rewrite (py_int_comp _ _ E), E. reflexivity.
Qed.

Lemma fractional_part_quarters (n : Z) (c : Q) :
  (0 <= n)%Z -> 0 <= c < 1 -> fractional_part (inject_Z n + c) == c.
Proof.
  intros Hn Hc. unfold fractional_part. rewrite py_int_quarters by assumption.
  lra.
Qed.

Lemma fractional_part_inject (n : Z) : fractional_part (inject_Z n) == 0.
Proof. unfold fractional_part. rewrite py_int_inject. lra. Qed.

Lemma round_to_quarter_fraction (v : Q) :
  let f := fractional_part (round_to_quarter_try v) in
  f == 0 \/ f == 0.25 \/ f == 0.5 \/ f == 0.75.
Proof.
  cbv zeta.
  destruct (round_to_quarter_shape v) as [[n E] | (n & Hn & [E | [E | E]])];
    rewrite (fractional_part_comp _ _ E).
  - left. apply fractional_part_inject.
  - right; left. apply fractional_part_quarters; [assumption | lra].
  - right; right; left. apply fractional_part_quarters; [assumption | lra].
  - right; right; right. apply fractional_part_quarters; [assumption | lra].
Qed.

Lemma round_to_quarter_inject (n : Z) :
  round_to_quarter_try (inject_Z n) == inject_Z n.
Proof.
  pose proof (round_to_quarter_ranges (inject_Z n)) as (R0 & _).
  cbv zeta in R0. rewrite py_int_inject in R0. apply R0. lra.
Qed.

Lemma round_to_quarter_quarters (n : Z) (c : Q) :
  (0 <= n)%Z -> c == 0.25 \/ c == 0.5 \/ c == 0.75 ->
  round_to_quarter_try (inject_Z n + c) == inject_Z n + c.
Proof.
  intros Hn Hc.
  pose proof (round_to_quarter_ranges (inject_Z n + c)) as (_ & R1 & R2 & R3 & _).
  cbv zeta in *.
  rewrite py_int_quarters in * by (assumption || lra).
  destruct Hc as [E | [E | E]].
  - rewrite R1; lra.
  - rewrite R2; lra.
  - rewrite R3; lra.
Qed.

(** A quantized price is left as it is by the quantizer. *)
Lemma round_to_quarter_idempotent (v : Q) :
  round_to_quarter_try (round_to_quarter_try v) == round_to_quarter_try v.
Proof.
  destruct (round_to_quarter_shape v) as [[n E] | (n & Hn & Hc)].
  - rewrite (round_to_quarter_comp _ _ E), E. apply round_to_quarter_inject.
  - destruct Hc as [E | [E | E]];
      rewrite (round_to_quarter_comp _ _ E), E;
      apply round_to_quarter_quarters; auto; lra.
Qed.

Lemma round_to_quarter_fin (v : Q) :
  round_to_quarter (Fin v) = Fin (round_to_quarter_try v).
Proof. reflexivity. Qed.

(** C5, as the code has it: [round_to_quarter] splits a finite input into
    [int(value)] and the rest, sends the rest to 0, .25, .5, .75 or a carry
    by the half-open ranges [0,.125), [.125,.375), [.375,.625),
    [.625,.875), [.875,1); the fractional part of the result of every
    finite input is 0, .25, .5 or .75; an infinity or nan is returned as it
    is; and 1637.12, 1637.13 and 1637.99 go to 1637, 1637.25 and 1638. *)
Theorem round_to_quarter_spec :
  (forall v : Q,
     let i := inject_Z (py_int v) in
     let d := v - i in
     exists r : Q,
       round_to_quarter v = Fin r /\
       (0 <= v -> 0 <= d < 1) /\
       (0 <= d < 0.125 -> r == i + 0) /\
       (0.125 <= d < 0.375 -> r == i + 0.25) /\
       (0.375 <= d < 0.625 -> r == i + 0.5) /\
       (0.625 <= d < 0.875 -> r == i + 0.75) /\
       (0.875 <= d < 1 -> r == (i + 1) + 0) /\
       (let f := fractional_part r in
        f == 0 \/ f == 0.25 \/ f == 0.5 \/ f == 0.75)) /\
  (forall x, is_finite x = false -> round_to_quarter x = x) /\
  feqb (round_to_quarter 1637.12) 1637.0 = true /\
  feqb (round_to_quarter 1637.13) 1637.25 = true /\
  feqb (round_to_quarter 1637.99) 1638.0 = true.
Proof.
  split; [|split; [|repeat split; reflexivity]].
  - intros v i d. exists (round_to_quarter_try v).
    split; [reflexivity|].
    pose proof (round_to_quarter_ranges v) as (R0 & R1 & R2 & R3 & R4).
    cbv zeta in *. fold i in R0, R1, R2, R3, R4. fold d in R0, R1, R2, R3, R4.
    split; [intros Hv; now destruct (py_int_split_nonneg v Hv)|].
    split; [intros; rewrite R0; lra|].
    split; [intros; rewrite R1; lra|].
    split; [intros; rewrite R2; lra|].
    split; [intros; rewrite R3; lra|].
    split; [intros; rewrite R4; lra|].
    apply round_to_quarter_fraction.
  - intros [v| |] Hx; [discriminate | reflexivity | reflexivity].
Qed.

(** The ranges at work on 1637.13, whose fractional part lies in
    [.125,.375). *)
Lemma round_to_quarter_spec_witness :
  0.125 <= 1637.13 - inject_Z (py_int 1637.13) < 0.375 /\
  exists r : Q,
    round_to_quarter 1637.13 = Fin r /\
    r == inject_Z (py_int 1637.13) + 0.25.
Proof.
  assert (0.125 <= 1637.13 - inject_Z (py_int 1637.13) < 0.375) as Hd
    by (split; [discriminate | reflexivity]).
  split; [exact Hd|].
  destruct round_to_quarter_spec as [Hall _].
  destruct (Hall 1637.13) as (r & Er & _ & _ & R1 & _).
  exists r. split; [exact Er | exact (R1 Hd)].
Defined.

(** Where the quantizer leaves the set of quarters: nan and the
    infinities go through the handler and come back as they are. *)
Lemma round_to_quarter_counterexample :
  DecimalFloat.parse "nan" = Some NaN /\
  DecimalFloat.parse "inf" = Some (Inf false) /\
  round_to_quarter NaN = NaN /\
  round_to_quarter (Inf false) = Inf false /\
  (forall x, x = NaN \/ x = Inf false ->
     ~ exists r : Q,
         round_to_quarter x = Fin r /\
         (let f := fractional_part r in
          f == 0 \/ f == 0.25 \/ f == 0.5 \/ f == 0.75)).
Proof.
  repeat (split; [reflexivity|]).
  intros x [-> | ->] (r & Er & _); discriminate.
Qed.

End Quantizer.

(** ** Derived values *)

Section Derived.

Lemma calculate_tx_price_fin (p : Q) :
  calculate_tx_price (Fin p) = Fin (py_round0 (p * conversion_factor)).
Proof. reflexivity. Qed.

Lemma calculate_tx_change_fin (p : Q) :
  calculate_tx_change (Fin p) =
    Fin (py_round0 (py_round0 (p * conversion_factor) - base_tx)).
Proof. reflexivity. Qed.

Lemma py_round0_whole (x : Q) : exists n : Z, py_round0 x = inject_Z n.
Proof.
  unfold py_round0. cbv zeta.
  repeat match goal with |- context [if ?b then _ else _] => destruct b end;
    eauto.
Qed.

Lemma calculate_tx_price_whole (p : Q) :
  exists n : Z, calculate_tx_price p = Fin (inject_Z n).
Proof.
  rewrite calculate_tx_price_fin.
  destruct (py_round0_whole (p * conversion_factor)) as [n ->]. eauto.
Qed.

Lemma calculate_tx_price_inf (b : bool) : calculate_tx_price (Inf b) = Inf b.
Proof. destruct b; reflexivity. Qed.

Lemma calculate_tx_change_inf (b : bool) : calculate_tx_change (Inf b) = Inf b.
Proof. destruct b; reflexivity. Qed.

Lemma same_feqb (x y : pyfloat) : same x y -> x <> NaN -> feqb x y = true.
Proof.
  destruct x as [a|b1|], y as [b|b2|]; cbn; try tauto.
  - intros E _. now apply Qeq_bool_iff.
  - intros -> _. apply Bool.eqb_reflx.
Qed.

(** The offset of a finite price, as a rational. *)
Lemma calculate_tx_change_offset_fin (p : Q) :
  exists n : Z,
    calculate_tx_price p = Fin (inject_Z n) /\
    calculate_tx_change p = Fin (inject_Z (n - 27556)).
Proof.
  rewrite calculate_tx_change_fin, calculate_tx_price_fin.
  destruct (py_round0_whole (p * conversion_factor)) as [n ->].
  exists n. split; [reflexivity|]. f_equal.
  rewrite (py_round0_comp _ (inject_Z (n - 27556))).
  - apply py_round0_inject.
  - unfold base_tx, Z.sub. rewrite inject_Z_plus, inject_Z_opp. reflexivity.
Qed.

(** C7: the calculators depend on the input price alone, so equal prices
    give equal results, and for every input price the derived offset is
    the derived price minus the baseline 27556: the same value for every
    float, and [==] to it for every float but nan. *)
Theorem calculate_tx_change_is_offset (p q : pyfloat) :
  same p q ->
  same (calculate_tx_price p) (calculate_tx_price q) /\
  same (calculate_tx_change p) (calculate_tx_change q) /\
  same (calculate_tx_change p) (fsub (calculate_tx_price p) 27556) /\
  (p <> NaN ->
   feqb (calculate_tx_change p) (fsub (calculate_tx_price p) 27556) = true).
Proof.
  intros E.
  assert (same (calculate_tx_change p) (fsub (calculate_tx_price p) 27556))
    as Hoff.
  { destruct p as [a|b|].
    - destruct (calculate_tx_change_offset_fin a) as (n & -> & ->).
      cbn. unfold Z.sub. rewrite inject_Z_plus, inject_Z_opp. reflexivity.
    - rewrite calculate_tx_change_inf, calculate_tx_price_inf. reflexivity.
    - exact Logic.I. }
  destruct p as [a|b1|], q as [b|b2|]; cbn in E; try contradiction.
  - assert (calculate_tx_price a = calculate_tx_price b) as Ep.
    { rewrite !calculate_tx_price_fin. f_equal. apply py_round0_comp.
      now rewrite E. }
    assert (calculate_tx_change a = calculate_tx_change b) as Ec.
    { unfold calculate_tx_change. now rewrite Ep. }
    rewrite <- Ep, <- Ec.
    destruct (calculate_tx_change_offset_fin a) as (n & En & Em).
    split; [rewrite En; cbn; reflexivity|].
    split; [rewrite Em; cbn; reflexivity|].
    split; [exact Hoff|]. intros _. apply same_feqb; [exact Hoff|].
    rewrite Em. discriminate.
  - subst b2. rewrite !calculate_tx_price_inf, !calculate_tx_change_inf.
    repeat split. intros _. destruct b1; reflexivity.
  - repeat split; try exact Logic.I. intros N. now elim N.
Qed.

Lemma calculate_tx_change_is_offset_witness :
  same (calculate_tx_price 1637.5) (calculate_tx_price (3275 # 2)) /\
  same (calculate_tx_change 1637.5) (calculate_tx_change (3275 # 2)) /\
  same (calculate_tx_change 1637.5) (fsub (calculate_tx_price 1637.5) 27556) /\
  (Fin 1637.5 <> NaN ->
   feqb (calculate_tx_change 1637.5) (fsub (calculate_tx_price 1637.5) 27556)
     = true).
Proof.
  apply (calculate_tx_change_is_offset 1637.5 (3275 # 2)). reflexivity.
Defined.

Example default_derived_values :
  calculate_tx_price default_price = Fin 20110 /\
  calculate_tx_change default_price = Fin (-7446).
Proof. split; reflexivity. Qed.

End Derived.

(** ** Market classifier *)

Section Market.

Import DateTime.
Local Open Scope Z_scope.

Lemma weekday_range (now : datetime) : 0 <= weekday now < 7.
Proof. unfold weekday. apply Z.mod_pos_bound. lia. Qed.

Lemma market_open_weekend (now : datetime) :
  5 <= weekday now -> market_open now = false.
Proof.
  intros Hw. unfold market_open.
  destruct (5 <=? weekday now) eqn:E; [reflexivity|].
  apply Z.leb_gt in E. lia.
Qed.

Lemma market_open_window (now : datetime) :
  valid_time now -> weekday now < 5 ->
  (market_open now = true <->
   31500000000 <= time_of_day now <= 49500000000).
Proof.
  intros Hv Hw. unfold market_open.
  destruct (5 <=? weekday now) eqn:E; [apply Z.leb_le in E; lia|].
  clear Hw E. destruct now as [y mo d h mi s us].
  destruct Hv as (Hh & Hm & Hs & Hu).
  unfold valid_time in *.
  unfold le, fields, replace, time_of_day.
  cbn [lex_le year month day hour minute second microsecond] in *.
  rewrite !Z.ltb_irrefl, !Z.eqb_refl, !andb_true_r, !orb_false_l.
  repeat (rewrite ?andb_true_iff, ?orb_true_iff).
  rewrite !Z.ltb_lt, !Z.eqb_eq. lia.
Qed.

(** C6: on the two weekend weekdays the classifier answers false whatever
    the time of day; on the other weekdays it answers true exactly when the
    local time of day is in [08:45:00, 13:45:00], both ends included; a
    Tuesday at 08:45:00 and at 13:44:59 is open, at 13:45:01 closed. *)
Theorem market_open_spec :
  (forall now, weekday now = 5 \/ weekday now = 6 -> market_open now = false) /\
  (forall now, valid_time now -> weekday now < 5 ->
     (market_open now = true <->
      time_of_day (replace now 8 45 0 0) <= time_of_day now
        <= time_of_day (replace now 13 45 0 0))) /\
  (weekday (tuesday 0 0 0) = 1 /\
   market_open (tuesday 8 45 0) = true /\
   market_open (tuesday 13 44 59) = true /\
   market_open (tuesday 13 45 0) = true /\
   market_open (tuesday 13 45 1) = false /\
   market_open (tuesday 8 44 59) = false) /\
  (forall h m s, market_open (saturday h m s) = false) /\
  (forall h m s, market_open (sunday h m s) = false).
Proof.
  split; [intros now Hw; apply market_open_weekend; lia|].
  split; [intros now Hv Hw; apply (market_open_window now Hv Hw)|].
  split; [repeat split; reflexivity|].
  split; intros; apply market_open_weekend; vm_compute; discriminate.
Qed.

Lemma market_open_spec_witness :
  valid_time (tuesday 13 45 0) /\ weekday (tuesday 13 45 0) < 5 /\
  market_open (tuesday 13 45 0) = true.
Proof.
  assert (valid_time (tuesday 13 45 0)) as Hv by (unfold valid_time; simpl; lia).
  assert (weekday (tuesday 13 45 0) < 5) as Hw by reflexivity.
  split; [exact Hv|]. split; [exact Hw|].
  destruct market_open_spec as (_ & Hwin & _).
  apply (Hwin _ Hv Hw).
  unfold time_of_day, replace, tuesday.
  cbn [hour minute second microsecond]. lia.
Defined.

End Market.

(** ** Field extractor *)

Section Extractor.

Context `{Builtins}.
Local Open Scope string_scope.

Lemma contains_startswith (p s : string) :
  Str.contains p s = false -> Str.startswith s p = false.
Proof.
  unfold Str.startswith. destruct s; simpl; intros E;
    apply orb_false_iff in E; tauto.
Qed.

Lemma extract_change_found (pi : price_info) (el : tag) (v : pyfloat) :
  Price1_lbTChange pi = Some (Some el) ->
  let t := Str.strip (text el) in
  py_float (Str.replace "," "" (Str.replace "▲" "" (Str.replace "▼" "" t)))
    = Some v ->
  extract_change pi =
    if negb (Str.startswith t "-") then
      if Str.contains "▼" t then Ok (fneg v)
      else obind (first_class el)
             (fun c => if String.eqb c "clr-gr" then Ok (fneg v) else Ok v)
    else Ok v.
Proof.
  intros Hel t Hv. unfold extract_change. rewrite Hel.
  cbn [find_element obind]. fold t. unfold float_of. rewrite Hv.
  cbn [obind].
  destruct (negb (Str.startswith t "-")); [|reflexivity].
  destruct (Str.contains "▼" t); [reflexivity|].
  destruct (first_class el) as [c|[]] eqn:Ec; cbn [obind reraise_parse];
    try reflexivity;
    try (destruct (String.eqb c "clr-gr"); reflexivity);
    unfold first_class in Ec; destruct (class_attr el) as [[|]|]; discriminate.
Qed.

Lemma extract_percent_found (pi : price_info) (el : tag) (v : pyfloat) :
  Price1_lbTPercent pi = Some (Some el) ->
  let t := Str.replace "%" "" (Str.strip (text el)) in
  py_float t = Some v ->
  extract_percent pi =
    if negb (Str.startswith t "-") then
      if Str.contains "▼" (text el) then Ok (fneg v)
      else obind (first_class el)
             (fun c => if String.eqb c "clr-gr" then Ok (fneg v) else Ok v)
    else Ok v.
Proof.
  intros Hel t Hv. unfold extract_percent. rewrite Hel.
  cbn [find_element obind]. fold t. unfold float_of. rewrite Hv.
  cbn [obind].
  destruct (negb (Str.startswith t "-")); [|reflexivity].
  destruct (Str.contains "▼" (text el)); [reflexivity|].
  destruct (first_class el) as [c|[]] eqn:Ec; cbn [obind reraise_parse];
    try reflexivity;
    try (destruct (String.eqb c "clr-gr"); reflexivity);
    unfold first_class in Ec; destruct (class_attr el) as [[|]|]; discriminate.
Qed.

(** C4, as the code has it: for the change field, a stripped text that
    starts with '-' keeps its parsed value; a text without any minus sign
    is negated exactly when the down glyph is in the text or the first
    class of the element is [clr-gr].  For the percent field the same
    holds of a text without the down glyph, read after '%' is removed. *)
Theorem sign_correction (pi : price_info) (el : tag) (v : pyfloat) (c : string) :
  first_class el = Ok c ->
  (Price1_lbTChange pi = Some (Some el) ->
   let t := Str.strip (text el) in
   py_float (Str.replace "," "" (Str.replace "▲" "" (Str.replace "▼" "" t)))
     = Some v ->
   (Str.startswith t "-" = true -> extract_change pi = Ok v) /\
   (Str.contains "-" t = false ->
    extract_change pi =
      Ok (if Str.contains "▼" t || String.eqb c "clr-gr"
          then fneg v else v)))
  /\
  (Price1_lbTPercent pi = Some (Some el) ->
   let t := Str.replace "%" "" (Str.strip (text el)) in
   py_float t = Some v ->
   Str.contains "▼" (text el) = false ->
   (Str.startswith t "-" = true -> extract_percent pi = Ok v) /\
   (Str.contains "-" t = false ->
    extract_percent pi =
      Ok (if String.eqb c "clr-gr" then fneg v else v))).
Proof.
  intros Hc. split.
  - intros Hel t Hv. rewrite (extract_change_found pi el v Hel Hv). fold t.
    split.
    + intros ->. reflexivity.
    + intros Hm. rewrite (contains_startswith _ _ Hm). cbn [negb].
      destruct (Str.contains "▼" t); [reflexivity|].
      rewrite Hc. cbn [obind orb].
      destruct (String.eqb c "clr-gr"); reflexivity.
  - intros Hel t Hv Hg. rewrite (extract_percent_found pi el v Hel Hv). fold t.
    rewrite Hg. split.
    + intros ->. reflexivity.
    + intros Hm. rewrite (contains_startswith _ _ Hm). cbn [negb].
      rewrite Hc. cbn [obind].
      destruct (String.eqb c "clr-gr"); reflexivity.
Qed.

End Extractor.

Section ExtractorExamples.

Local Open Scope string_scope.
Local Existing Instance decimal_builtins.

(** The change texts of the specification, on elements of either class. *)
Lemma sign_correction_witness :
  extract_change (region (span "1,637.50" "clr-rd") (span "-5.2" "clr-rd")
                    (span "-0.3%" "clr-rd")) = Ok (Fin (-5.2)) /\
  extract_change (region (span "1,637.50" "clr-gr") (span "-5.2" "clr-gr")
                    (span "-0.3%" "clr-gr")) = Ok (Fin (-5.2)) /\
  extract_change (region (span "1,637.50" "clr-gr") (span "-5.2▼" "clr-gr")
                    (span "-0.3%" "clr-gr")) = Ok (Fin (-5.2)) /\
  extract_change (region (span "1,637.50" "clr-rd") (span "▼5.2" "clr-rd")
                    (span "-0.3%" "clr-rd")) = Ok (Fin (- 5.2)) /\
  extract_percent (region (span "1,637.50" "clr-gr") (span "▼5.2" "clr-gr")
                    (span "0.3%" "clr-gr")) = Ok (Fin (- 0.3)).
Proof.
  pose (r := fun c ct pt => region (span "1,637.50" c) (span ct c) (span pt c)).
  assert (forall t cl, first_class (span t cl) = Ok cl) as Hc by reflexivity.
  refine (conj _ (conj _ (conj _ (conj _ _)))).
  - exact (proj1 (proj1 (sign_correction (r "clr-rd" "-5.2" "-0.3%") _ _ _
             (Hc "-5.2" "clr-rd")) eq_refl eq_refl) eq_refl).
  - exact (proj1 (proj1 (sign_correction (r "clr-gr" "-5.2" "-0.3%") _ _ _
             (Hc "-5.2" "clr-gr")) eq_refl eq_refl) eq_refl).
  - exact (proj1 (proj1 (sign_correction (r "clr-gr" "-5.2▼" "-0.3%") _ _ _
             (Hc "-5.2▼" "clr-gr")) eq_refl eq_refl) eq_refl).
  - exact (proj2 (proj1 (sign_correction (r "clr-rd" "▼5.2" "-0.3%") _ _ _
             (Hc "▼5.2" "clr-rd")) eq_refl eq_refl) eq_refl).
  - exact (proj2 (proj2 (sign_correction (r "clr-gr" "▼5.2" "0.3%") _ _ _
             (Hc "0.3%" "clr-gr")) eq_refl eq_refl eq_refl) eq_refl).
Defined.

(** Where the code departs from the rule as the specification words it: an
    element of the red class [clr-rd] is not negated while one of class
    [clr-gr] is, and a percent text that carries the down glyph is not
    converted at all. *)
Lemma sign_correction_counterexample :
  extract_change (region (span "1,637.50" "clr-rd") (span "5.2" "clr-rd")
                    (span "0.3%" "clr-rd")) = Ok (Fin 5.2) /\
  extract_change (region (span "1,637.50" "clr-gr") (span "5.2" "clr-gr")
                    (span "0.3%" "clr-gr")) = Ok (Fin (- 5.2)) /\
  extract_percent (region (span "1,637.50" "clr-gr") (span "▼5.2" "clr-gr")
                     (span "▼5.2%" "clr-gr"))
    = Raise (FTSEDataError "無法解析漲跌百分比") /\
  extract_percent (region (span "1,637.50" "clr-rd") (span "▼5.2" "clr-rd")
                     (span "5.2▼" "clr-rd"))
    = Raise (FTSEDataError "無法解析漲跌百分比") /\
  ~ (5.2 == - 5.2)%Q.
Proof. repeat (split; [reflexivity|]). vm_compute. discriminate. Qed.

End ExtractorExamples.

(** ** The store under the fallback handler *)

Section Fallback.

Context `{Builtins} (env : environment).
Local Open Scope string_scope.

Lemma truthy_insert (k : string) (v : pyval) (m : gmap string pyval) :
  truthy (Some (<[k := v]> m)) = true.
Proof.
  unfold truthy. rewrite dom_insert_L.
  apply negb_true_iff, bool_decide_eq_false. set_solver.
Qed.

Lemma update_ftse_data_run p c cp src txp txc (w : world) :
  update_ftse_data env p c cp src txp txc w =
  (Ok tt,
   {| ftse_data :=
        Some (live_data p c cp src txp txc (time_time env (ticks w))
                (DateTime.strftime (taipei_now env (1 + ticks w)))
                (market_open (taipei_now env (2 + ticks w))));
      last_update_time := time_time env (ticks w);
      ticks := 3 + ticks w; threads := threads w |}).
Proof. reflexivity. Qed.

(** After a successful write the capture time of the snapshot and the last
    write time are one reading of the clock. *)
Lemma update_ftse_data_clocks_agree p c cp src txp txc (w : world) :
  let w' := snd (update_ftse_data env p c cp src txp txc w) in
  exists data, ftse_data w' = Some data /\
    data !! "timestamp" = Some (VNum (last_update_time w')).
Proof.
  cbv zeta. rewrite update_ftse_data_run. cbn [snd ftse_data last_update_time].
  eexists. split; reflexivity.
Qed.

Lemma use_default_run (msg : string) (w : world) :
  use_default env msg w =
  (Ok false,
   {| ftse_data :=
        Some (default_data msg (time_time env (ticks w))
                (DateTime.strftime (taipei_now env (1 + ticks w)))
                (market_open (taipei_now env (2 + ticks w))));
      last_update_time := time_time env (3 + ticks w);
      ticks := 4 + ticks w; threads := threads w |}).
Proof. reflexivity. Qed.

Lemma handle_data_error_reuse (msg : string) (w : world) data :
  ftse_data w = Some data -> truthy (Some data) = true ->
  time_time env (ticks w) - last_update_time w < 300 ->
  handle_data_error env msg w =
  (Ok true,
   {| ftse_data := Some (<["error" := VStr msg]> data);
      last_update_time := last_update_time w;
      ticks := S (ticks w); threads := threads w |}).
Proof.
  intros Hd Ht Hage. unfold handle_data_error, bind, get_world.
  rewrite Hd, Ht. unfold now_epoch. cbn [tick last_update_time].
  apply Qltb_lt in Hage. rewrite Hage. reflexivity.
Qed.

Lemma handle_data_error_expired (msg : string) (w : world) :
  truthy (ftse_data w) = true ->
  300 <= time_time env (ticks w) - last_update_time w ->
  handle_data_error env msg w = use_default env msg (tick w).
Proof.
  intros Ht Hage. unfold handle_data_error, bind, get_world.
  destruct (ftse_data w) as [data|] eqn:Hd; [|discriminate].
  rewrite Ht. unfold now_epoch. cbn [tick last_update_time].
  apply Qltb_ge in Hage. rewrite Hage. reflexivity.
Qed.

Lemma handle_data_error_absent (msg : string) (w : world) :
  truthy (ftse_data w) = false ->
  handle_data_error env msg w = use_default env msg w.
Proof.
  intros Ht. unfold handle_data_error, bind, get_world.
  destruct (ftse_data w) as [data|] eqn:Hd; [|reflexivity].
  rewrite Ht. reflexivity.
Qed.

(** The handler never raises, and answers by one of its two paths. *)
Lemma handle_data_error_paths (msg : string) (w : world) :
  (exists data,
     ftse_data w = Some data /\ truthy (Some data) = true /\
     time_time env (ticks w) - last_update_time w < 300 /\
     handle_data_error env msg w =
       (Ok true,
        {| ftse_data := Some (<["error" := VStr msg]> data);
           last_update_time := last_update_time w;
           ticks := S (ticks w); threads := threads w |})) \/
  (exists w0, (w0 = w \/ w0 = tick w) /\
     handle_data_error env msg w = use_default env msg w0).
Proof.
  destruct (truthy (ftse_data w)) eqn:Ht.
  - destruct (Qlt_le_dec (time_time env (ticks w) - last_update_time w) 300)
      as [Hage|Hage].
    + destruct (ftse_data w) as [data|] eqn:Hd; [|discriminate].
      left. exists data. repeat split; auto.
      now apply handle_data_error_reuse.
    + right. exists (tick w). split; [now right|].
      now apply handle_data_error_expired.
  - right. exists w. split; [now left|]. now apply handle_data_error_absent.
Qed.

End Fallback.

(** ** Invariants of the store *)

Section StoreInvariant.

Context `{Builtins} (env : environment).
Local Open Scope string_scope.

(** A property of the two globals. *)
Variable I : option (gmap string pyval) -> Q -> Prop.

Lemma triple_ret {A} (a : A) (post : A -> Prop) : post a -> triple I (ret a) post.
Proof. intros Hp w Hw. split; [exact Hw | exact Hp]. Qed.

Lemma triple_raise {A} (e : exn) (post : A -> Prop) : triple I (raise e) post.
Proof. intros w Hw. split; [exact Hw | exact Logic.I]. Qed.

Lemma triple_lift {A} (o : outcome A) (post : A -> Prop) :
  (forall a, o = Ok a -> post a) -> triple I (lift o) post.
Proof.
  intros Hp w Hw. split; [exact Hw|]. unfold lift. cbn [fst].
  destruct o; auto.
Qed.

Lemma triple_bind {A B} (c : M A) (k : A -> M B) (mid : A -> Prop)
    (post : B -> Prop) :
  triple I c mid -> (forall a, mid a -> triple I (k a) post) ->
  triple I (bind c k) post.
Proof.
  intros Hc Hk w Hw. unfold bind.
  destruct (Hc w Hw) as [Hw' Hmid].
  destruct (c w) as [[a|e] w']; cbn [fst snd] in *.
  - exact (Hk a Hmid w' Hw').
  - split; [exact Hw' | exact Logic.I].
Qed.

Lemma triple_try {A} (body : M A) (handler : exn -> option (M A))
    (post : A -> Prop) :
  triple I body post ->
  (forall e h, handler e = Some h -> triple I h post) ->
  triple I (try_except body handler) post.
Proof.
  intros Hb Hh w Hw. unfold try_except.
  destruct (Hb w Hw) as [Hw' Hpost].
  destruct (body w) as [[a|e] w']; cbn [fst snd] in *.
  - split; assumption.
  - destruct (handler e) as [h|] eqn:E.
    + exact (Hh e h E w' Hw').
    + split; [exact Hw' | exact Logic.I].
Qed.

Lemma triple_weaken {A} (c : M A) (p q : A -> Prop) :
  triple I c p -> (forall a, p a -> q a) -> triple I c q.
Proof.
  intros Hc Hpq w Hw. destruct (Hc w Hw) as [Hw' Hp]. split; [exact Hw'|].
  destruct (fst (c w)); auto.
Qed.

Lemma triple_if {A} (b : bool) (c1 c2 : M A) (post : A -> Prop) :
  triple I c1 post -> triple I c2 post -> triple I (if b then c1 else c2) post.
Proof. destruct b; auto. Qed.

(** Steps that leave both globals alone. *)
Lemma triple_now_epoch : triple I (now_epoch env) anything.
Proof. intros w Hw. split; [exact Hw | exact Logic.I]. Qed.

Lemma triple_get_taipei_time : triple I (get_taipei_time env) anything.
Proof. intros w Hw. split; [exact Hw | exact Logic.I]. Qed.

Lemma triple_server_strftime : triple I (server_strftime env) anything.
Proof. intros w Hw. split; [exact Hw | exact Logic.I]. Qed.

Lemma triple_is_market_hours : triple I (is_market_hours env) anything.
Proof. intros w Hw. split; [exact Hw | exact Logic.I]. Qed.

Lemma triple_start_refresh_thread : triple I start_refresh_thread anything.
Proof. intros w Hw. split; [exact Hw | exact Logic.I]. Qed.

Lemma triple_get_world : triple I get_world anything.
Proof. intros w Hw. split; [exact Hw | exact Logic.I]. Qed.

(** What the three writers must establish. *)
Hypothesis I_start : I None 0.
Hypothesis I_update :
  forall v c cp src txp txc t tp open,
    I (Some (live_data (round_to_quarter v) c cp src txp txc t tp open)) t.
Hypothesis I_default :
  forall msg n m tp open, (n <= m)%nat ->
    I (Some (default_data msg (time_time env n) tp open)) (time_time env m).
Hypothesis I_setitem :
  forall d lut k v,
    k = "error" \/ k = "request_time" \/ k = "server_time" ->
    I (Some d) lut -> I (Some (<[k := v]> d)) lut.

Lemma triple_update_ftse_data v c cp src txp txc :
  triple I (update_ftse_data env (round_to_quarter v) c cp src txp txc) anything.
Proof.
  intros w Hw. rewrite update_ftse_data_run. cbn [fst snd].
  split; [|exact Logic.I]. unfold holds. cbn [ftse_data last_update_time].
  apply I_update.
Qed.

Lemma triple_use_default msg : triple I (use_default env msg) anything.
Proof.
  intros w Hw. rewrite use_default_run. cbn [fst snd].
  split; [|exact Logic.I]. unfold holds. cbn [ftse_data last_update_time].
  apply I_default. lia.
Qed.

Lemma triple_handle_data_error msg :
  triple I (handle_data_error env msg) anything.
Proof.
  intros w Hw.
  destruct (handle_data_error_paths env msg w)
    as [(data & Hd & _ & _ & ->) | (w0 & Hw0 & ->)].
  - cbn [fst snd]. split; [|exact Logic.I].
    unfold holds in *. cbn [ftse_data last_update_time].
    rewrite Hd in Hw. apply I_setitem; auto.
  - apply triple_use_default. destruct Hw0 as [-> | ->]; exact Hw.
Qed.

Lemma extract_price_quantized (pi : price_info) (p : pyfloat) :
  extract_price pi = Ok p -> exists v, p = round_to_quarter v.
Proof.
  unfold extract_price, find_element, float_of.
  destruct (Price1_lbTPrice pi) as [[el|]|]; cbn [obind reraise_parse];
    try discriminate.
  destruct (py_float _) as [v|]; cbn [obind reraise_parse]; [|discriminate].
  intros [= <-]. eauto.
Qed.

Lemma triple_fetch_and_update : triple I (fetch_and_update env) anything.
Proof.
  unfold fetch_and_update.
  eapply triple_bind; [apply triple_now_epoch|]. intros _ _.
  eapply triple_bind with (mid := anything).
  { intros w Hw. split; [exact Hw | exact Logic.I]. }
  intros [msg|msg|[pi|]] _; try apply triple_raise.
  eapply triple_bind; [apply (triple_lift _ _ (extract_price_quantized pi))|].
  intros price [v ->].
  eapply triple_bind; [apply (triple_lift _ anything); easy|]. intros change _.
  eapply triple_bind; [apply (triple_lift _ anything); easy|]. intros pct _.
  cbv zeta.
  eapply triple_bind; [apply triple_update_ftse_data|]. intros _ _.
  now apply triple_ret.
Qed.

Lemma triple_get_ftse_data_from_histock :
  triple I (get_ftse_data_from_histock env) anything.
Proof.
  unfold get_ftse_data_from_histock.
  apply triple_try; [apply triple_fetch_and_update|].
  intros e h [= <-]. destruct e; apply triple_handle_data_error.
Qed.

Lemma triple_background_turn : triple I (background_turn env) anything.
Proof.
  unfold background_turn.
  eapply triple_bind; [apply triple_is_market_hours|]. intros _ _.
  apply triple_get_ftse_data_from_histock.
Qed.

Lemma triple_get_ftse_data : triple I (get_ftse_data env) anything.
Proof.
  unfold get_ftse_data.
  eapply triple_bind; [apply triple_get_world|]. intros w0 _.
  apply triple_if.
  - eapply triple_bind; [apply triple_is_market_hours|]. intros open _.
    cbv zeta.
    eapply triple_bind; [apply triple_now_epoch|]. intros now _.
    eapply triple_bind.
    { apply (triple_if _ _ _ anything);
        [apply triple_start_refresh_thread | now apply triple_ret]. }
    intros _ _. now apply triple_ret.
  - eapply triple_bind; [apply triple_get_ftse_data_from_histock|].
    intros _ _.
    eapply triple_bind; [apply triple_get_world|]. intros w' _.
    now apply triple_ret.
Qed.

Lemma triple_setitem k v :
  k = "request_time" \/ k = "server_time" -> triple I (setitem k v) anything.
Proof.
  intros Hk w Hw. unfold setitem, bind, get_world.
  destruct (ftse_data w) as [d|] eqn:Hd.
  - cbn [fst snd set_ftse_data]. split; [|exact Logic.I].
    unfold holds in *. cbn [ftse_data last_update_time].
    rewrite Hd in Hw. apply I_setitem; tauto.
  - split; [exact Hw | exact Logic.I].
Qed.

Lemma triple_api_get_ftse_data force_refresh :
  triple I (api_get_ftse_data env force_refresh) anything.
Proof.
  unfold api_get_ftse_data. apply triple_try.
  - eapply triple_bind; [apply triple_get_ftse_data|]. intros data _.
    eapply triple_bind with (mid := anything).
    { destruct force_refresh; [now apply triple_ret|].
      eapply triple_bind; [apply triple_now_epoch|]. intros now _.
      eapply triple_bind; [apply (triple_lift _ anything); easy|].
      intros [s|ts|b] _; try apply triple_raise.
      eapply triple_bind; [apply triple_is_market_hours|]. intros open _.
      now apply triple_ret. }
    intros stale _.
    eapply triple_bind with (mid := anything).
    { destruct stale; [|now apply triple_ret].
      eapply triple_bind; [apply triple_get_ftse_data_from_histock|].
      intros _ _.
      eapply triple_bind; [apply triple_get_ftse_data|]. intros _ _.
      now apply triple_ret. }
    intros _ _.
    eapply triple_bind; [apply triple_now_epoch|]. intros rt _.
    eapply triple_bind; [apply triple_setitem; tauto|]. intros _ _.
    eapply triple_bind; [apply triple_server_strftime|]. intros st _.
    eapply triple_bind; [apply triple_setitem; tauto|]. intros _ _.
    eapply triple_bind; [apply triple_get_world|]. intros w' _.
    now apply triple_ret.
  - intros e h [= <-].
    eapply triple_bind; [apply triple_now_epoch|]. intros ts _.
    eapply triple_bind; [apply triple_server_strftime|]. intros st _.
    now apply triple_ret.
Qed.

(** Every state the server passes through has the property. *)
Lemma reachable_holds (w : world) : reachable env w -> holds I w.
Proof.
  induction 1 as [|w Hr IH|w Hr IH|w Hr IH|w Hr IH|w b Hr IH].
  - exact I_start.
  - exact IH.
  - apply (triple_get_ftse_data_from_histock w IH).
  - apply (triple_background_turn w IH).
  - apply (triple_get_ftse_data w IH).
  - apply (triple_api_get_ftse_data b w IH).
Qed.

End StoreInvariant.

(** ** The fallback handler and the snapshot invariants *)

Section Snapshots.

Context `{Builtins} (env : environment).
Local Open Scope string_scope.

Lemma round_to_quarter_stable (v : pyfloat) :
  round_to_quarter v = NaN \/
  feqb (round_to_quarter (round_to_quarter v)) (round_to_quarter v) = true.
Proof.
  destruct v as [q|b|]; [right | right | now left].
  - cbn. apply Qeq_bool_iff, round_to_quarter_idempotent.
  - cbn. apply Bool.eqb_reflx.
Qed.

Lemma reachable_price_quantized (w : world) :
  reachable env w -> price_quantized (ftse_data w) (last_update_time w).
Proof.
  apply (reachable_holds env price_quantized).
  - intros m [=].
  - intros v c cp src txp txc t tp open m [= <-].
    exists (round_to_quarter v). split; [reflexivity|].
    apply round_to_quarter_stable.
  - intros msg n m tp open _ d [= <-].
    exists default_price. split; [reflexivity | now right].
  - intros d lut k v Hk Hd m [= <-].
    destruct (Hd d eq_refl) as (price & Hp & Hfix).
    exists price. split; [|exact Hfix].
    rewrite lookup_insert_ne; [exact Hp|].
    destruct Hk as [-> | [-> | ->]]; discriminate.
Qed.

Lemma reachable_captured_before_write (w : world) :
  clock_monotone env -> reachable env w ->
  captured_before_write (ftse_data w) (last_update_time w).
Proof.
  intros Hmono. apply (reachable_holds env captured_before_write).
  - intros m [=].
  - intros v c cp src txp txc t tp open m [= <-].
    split; [apply truthy_insert|]. exists t. split; [reflexivity | lra].
  - intros msg n m tp open Hnm d [= <-].
    split; [apply truthy_insert|]. exists (time_time env n).
    split; [reflexivity | now apply Hmono].
  - intros d lut k v Hk Hd m [= <-].
    destruct (Hd d eq_refl) as (_ & ts & Hts & Hle).
    split; [apply truthy_insert|]. exists ts. split; [|exact Hle].
    rewrite lookup_insert_ne; [exact Hts|].
    destruct Hk as [-> | [-> | ->]]; discriminate.
Qed.

(** C1: when a failed refresh reaches the fallback handler while a snapshot
    is current whose capture time is less than 300 seconds before the
    handler's reading of the clock, the handler answers True and keeps that
    snapshot with only ['error'] set to the message: price, change,
    changePercent, tx_price, tx_change, source and timestamp stay as they
    were. *)
Theorem reuse_within_window (w : world) (data : gmap string pyval)
    (ts : Q) (msg : string) :
  clock_monotone env -> reachable env w ->
  ftse_data w = Some data ->
  data !! "timestamp" = Some (VNum ts) ->
  time_time env (ticks w) - ts < 300 ->
  exists w' data',
    handle_data_error env msg w = (Ok true, w') /\
    ftse_data w' = Some data' /\
    data' !! "error" = Some (VStr msg) /\
    (forall k, k <> "error" -> data' !! k = data !! k) /\
    Forall (fun k => data' !! k = data !! k)
      ["price"; "change"; "changePercent"; "tx_price"; "tx_change";
       "source"; "timestamp"].
Proof.
  intros Hmono Hr Hd Hts Hage.
  destruct (reachable_captured_before_write w Hmono Hr data Hd)
    as (Htruthy & ts' & Hts' & Hle).
  rewrite Hts in Hts'. injection Hts' as <-.
  assert (time_time env (ticks w) - last_update_time w < 300) as Hlut by lra.
  eexists. exists (<["error" := VStr msg]> data).
  split; [apply (handle_data_error_reuse env msg w data Hd Htruthy Hlut)|].
  split; [reflexivity|].
  split; [apply lookup_insert_eq|].
  assert (forall k, k <> "error" ->
            <["error" := VStr msg]> data !! k = data !! k) as Hother.
  { intros k Hk. apply lookup_insert_ne. congruence. }
  split; [exact Hother|].
  repeat (apply Forall_cons; split; [apply Hother; discriminate|]).
  apply Forall_nil. exact Logic.I.
Qed.

(** C2, as the code has it: when a failed refresh reaches the fallback
    handler while no snapshot is current, or while the last write time of
    the store is 300 seconds or more before the handler's reading of the
    clock, the handler answers False and makes
    current the default snapshot: price 1637.5, change -68.3, percent -4.0,
    source '預設數據', the derived price and offset of 1637.5, a timestamp
    read during the call, and the message under ['error']. *)
Theorem default_when_absent_or_expired (w : world) (msg : string) :
  truthy (ftse_data w) = false \/
  300 <= time_time env (ticks w) - last_update_time w ->
  exists w' data n,
    handle_data_error env msg w = (Ok false, w') /\
    ftse_data w' = Some data /\
    (ticks w <= n < ticks w')%nat /\
    data !! "price" = Some (VNum 1637.5) /\
    data !! "change" = Some (VNum (-68.3)) /\
    data !! "changePercent" = Some (VNum (-4.0)) /\
    data !! "source" = Some (VStr "預設數據") /\
    data !! "tx_price" = Some (VNum (calculate_tx_price 1637.5)) /\
    data !! "tx_change" = Some (VNum (calculate_tx_change 1637.5)) /\
    data !! "timestamp" = Some (VNum (time_time env n)) /\
    data !! "error" = Some (VStr msg) /\
    feqb (calculate_tx_price 1637.5) 20110 = true /\
    feqb (calculate_tx_change 1637.5) (-7446) = true.
Proof.
  intros Hcase.
  assert (exists w0, (w0 = w \/ w0 = tick w) /\
            handle_data_error env msg w = use_default env msg w0)
    as (w0 & Hw0 & Hrun).
  { destruct (truthy (ftse_data w)) eqn:Ht.
    - destruct Hcase as [|Hage]; [discriminate|].
      exists (tick w). split; [now right|].
      now apply handle_data_error_expired.
    - exists w. split; [now left|]. now apply handle_data_error_absent. }
  rewrite Hrun, use_default_run.
  eexists. eexists. exists (ticks w0).
  split; [reflexivity|]. split; [reflexivity|].
  split; [destruct Hw0 as [-> | ->]; cbn [ticks tick]; lia|].
  repeat (split; [reflexivity|]). split; reflexivity.
Qed.

(** C3, as the code has it: a failed refresh that reuses the current
    snapshot leaves the last write time as it was; one that takes the
    default path sets it to the last reading of the clock made in the
    call.  The handler always takes one of the two paths. *)
Theorem last_update_time_after_failure (w : world) (msg : string) :
  let r := handle_data_error env msg w in
  (fst r = Ok true \/ fst r = Ok false) /\
  (fst r = Ok true ->
   last_update_time (snd r) = last_update_time w /\
   exists data, ftse_data w = Some data /\
     ftse_data (snd r) = Some (<["error" := VStr msg]> data)) /\
  (fst r = Ok false ->
   exists n, (ticks w <= n)%nat /\ ticks (snd r) = S n /\
     last_update_time (snd r) = time_time env n).
Proof.
  cbv zeta.
  destruct (handle_data_error_paths env msg w)
    as [(data & Hd & _ & _ & ->) | (w0 & Hw0 & ->)].
  - cbn [fst snd last_update_time ftse_data].
    split; [now left|]. split; [|discriminate].
    intros _. split; [reflexivity|]. exists data. auto.
  - rewrite use_default_run. cbn [fst snd last_update_time ticks].
    split; [now right|]. split; [discriminate|].
    intros _. exists (3 + ticks w0)%nat.
    split; [destruct Hw0 as [-> | ->]; cbn [ticks tick]; lia|].
    split; reflexivity.
Qed.

(** C10, as the code has it: in every state the server passes through, the
    price of the current snapshot, whichever of the three writers stored
    it, is a fixed point of [round_to_quarter], unless the price text of
    the page was read as nan, which is stored as it is. *)
Theorem price_always_quantized (w : world) (data : gmap string pyval) :
  reachable env w -> ftse_data w = Some data ->
  exists price : pyfloat,
    data !! "price" = Some (VNum price) /\
    (price = NaN \/ feqb (round_to_quarter price) price = true).
Proof.
  intros Hr Hd. exact (reachable_price_quantized w Hr data Hd).
Qed.

End Snapshots.

(** ** Refresh and read *)

Section Refresh.

Context `{Builtins} (env : environment).
Local Open Scope string_scope.

Lemma extract_price_fails (pi : price_info) :
  price_fails pi ->
  exists msg, In msg price_messages /\
              extract_price pi = Raise (FTSEDataError msg).
Proof.
  unfold price_fails, extract_price, find_element, float_of, price_messages.
  destruct (Price1_lbTPrice pi) as [[el|]|]; cbn [obind reraise_parse].
  - intros ->. cbn [obind reraise_parse]. eexists. split; [|reflexivity].
    right; left; reflexivity.
  - intros _. eexists. split; [|reflexivity]. left; reflexivity.
  - intros _. eexists. split; [|reflexivity]. right; left; reflexivity.
Qed.

(** The body of the refresh either stores a fresh snapshot or raises after
    its two readings, the store untouched. *)
Lemma fetch_and_update_outcome (w : world) :
  (exists v c cp,
     fetch_and_update env w =
       (Ok true,
        snd (update_ftse_data env (round_to_quarter v) c cp "HiStock網站"
               (calculate_tx_price (round_to_quarter v))
               (calculate_tx_change (round_to_quarter v)) (tick (tick w))))) \/
  (exists e, fetch_and_update env w = (Raise e, tick (tick w))).
Proof.
  unfold fetch_and_update, bind, now_epoch, raise, lift.
  cbn [tick ticks].
  destruct (requests_get env (S (ticks w))) as [m|m|[pi|]];
    try (right; eexists; reflexivity).
  destruct (extract_price pi) as [p|e] eqn:Ep;
    [|right; eexists; reflexivity].
  destruct (extract_price_quantized pi p Ep) as [v ->].
  destruct (extract_change pi) as [c|e]; [|right; eexists; reflexivity].
  destruct (extract_percent pi) as [cp|e]; [|right; eexists; reflexivity].
  left. exists v, c, cp. reflexivity.
Qed.

(** A refresh never raises, and leaves a snapshot in the store. *)
Lemma refresh_outcome (w : world) :
  (exists w', get_ftse_data_from_histock env w = (Ok true, w') /\
              (truthy (ftse_data w') = true)) \/
  (exists msg, get_ftse_data_from_histock env w =
                 handle_data_error env msg (tick (tick w))).
Proof.
  unfold get_ftse_data_from_histock, try_except.
  destruct (fetch_and_update_outcome w) as [(v & c & cp & ->) | (e & ->)].
  - left. rewrite update_ftse_data_run. cbn [snd].
    eexists. split; [reflexivity|]. apply truthy_insert.
  - right. destruct e; eexists; reflexivity.
Qed.

Lemma handle_data_error_leaves_snapshot (msg : string) (w : world) :
  exists b w', handle_data_error env msg w = (Ok b, w') /\
               truthy (ftse_data w') = true.
Proof.
  destruct (handle_data_error_paths env msg w)
    as [(data & _ & _ & _ & ->) | (w0 & _ & ->)].
  - eexists _, _. split; [reflexivity|]. apply truthy_insert.
  - rewrite use_default_run. eexists _, _. split; [reflexivity|].
    apply truthy_insert.
Qed.

Lemma refresh_leaves_snapshot (w : world) :
  exists b w', get_ftse_data_from_histock env w = (Ok b, w') /\
               truthy (ftse_data w') = true.
Proof.
  destruct (refresh_outcome w) as [(w' & -> & Ht) | (msg & ->)].
  - eauto.
  - apply handle_data_error_leaves_snapshot.
Qed.

(** A refresh whose body raises is the fallback handler run on the message
    of the exception, after the two readings the body made. *)
Lemma failed_refresh_is_fallback (w w2 : world) (e : exn) :
  fetch_and_update env w = (Raise e, w2) ->
  w2 = tick (tick w) /\
  get_ftse_data_from_histock env w =
    handle_data_error env (error_message_of e) (tick (tick w)).
Proof.
  intros Hf.
  destruct (fetch_and_update_outcome w) as [(v & c & cp & Hok) | (e' & Hr)].
  - rewrite Hok in Hf. discriminate.
  - rewrite Hr in Hf. injection Hf as -> <-. split; [reflexivity|].
    unfold get_ftse_data_from_histock, try_except. rewrite Hr.
    destruct e; reflexivity.
Qed.

(** C9: when the price field cannot be located or parsed, whatever the
    change and percent fields hold, the refresh hands one of the two price
    messages, which differ from every other field's message, to the
    fallback handler; the store then holds the previous snapshot with only
    ['error'] set, or the default snapshot, and nothing of the fetched
    page. *)
Theorem price_failure_falls_back (w : world) (pi : price_info) :
  requests_get env (S (ticks w)) = Soup (Some pi) ->
  price_fails pi ->
  exists msg,
    In msg price_messages /\ ~ In msg other_field_messages /\
    extract_price pi = Raise (FTSEDataError msg) /\
    get_ftse_data_from_histock env w =
      handle_data_error env msg (tick (tick w)) /\
    let w' := snd (get_ftse_data_from_histock env w) in
    ((exists old, ftse_data w = Some old /\
        ftse_data w' = Some (<["error" := VStr msg]> old)) \/
     (exists ts tp open,
        ftse_data w' = Some (default_data msg ts tp open))).
Proof.
  intros Hget Hfail.
  destruct (extract_price_fails pi Hfail) as (msg & Hin & Hex).
  exists msg. split; [exact Hin|].
  split.
  { unfold price_messages, other_field_messages in *. cbn [In] in *.
    destruct Hin as [<- | [<- | []]]; intros Hother;
      repeat (destruct Hother as [Hother | Hother]; [discriminate|]);
      exact Hother. }
  split; [exact Hex|].
  assert (get_ftse_data_from_histock env w =
            handle_data_error env msg (tick (tick w))) as Hrun.
  { unfold get_ftse_data_from_histock, try_except, fetch_and_update, bind,
      now_epoch, lift. cbn [tick ticks]. rewrite Hget, Hex. reflexivity. }
  split; [exact Hrun|]. cbv zeta. rewrite Hrun.
  destruct (handle_data_error_paths env msg (tick (tick w)))
    as [(data & Hd & _ & _ & ->) | (w0 & _ & ->)].
  - left. exists data. split; [exact Hd | reflexivity].
  - right. rewrite use_default_run. eexists _, _, _. reflexivity.
Qed.

(** C8: with a snapshot in the store, [get_ftse_data] returns it without
    running a refresh: when its age against [last_update_time] is within
    the interval (20 seconds in market hours, 300 otherwise) nothing else
    happens, and when the age exceeds the interval one refresh thread is
    started and the stored snapshot is still what is returned.  With no
    snapshot, the refresh runs inside the call and the snapshot it leaves
    is returned. *)
Theorem get_ftse_data_policy (w : world) :
  let open := market_open (taipei_now env (ticks w)) in
  let update_interval : Q := if open then 20 else 300 in
  let age := time_time env (S (ticks w)) - last_update_time w in
  (truthy (ftse_data w) = true -> age <= update_interval ->
   get_ftse_data env w =
     (Ok (ftse_data w),
      {| ftse_data := ftse_data w; last_update_time := last_update_time w;
         ticks := S (S (ticks w)); threads := threads w |})) /\
  (truthy (ftse_data w) = true -> update_interval < age ->
   get_ftse_data env w =
     (Ok (ftse_data w),
      {| ftse_data := ftse_data w; last_update_time := last_update_time w;
         ticks := S (S (ticks w)); threads := S (threads w) |})) /\
  (truthy (ftse_data w) = false ->
   exists b w' data,
     get_ftse_data_from_histock env w = (Ok b, w') /\
     ftse_data w' = Some data /\
     get_ftse_data env w = (Ok (Some data), w')).
Proof.
  cbv zeta. split; [|split].
  - intros Ht Hage. unfold get_ftse_data, bind, get_world. rewrite Ht.
    unfold is_market_hours, bind, get_taipei_time, ret, now_epoch.
    cbn [tick ticks last_update_time].
    apply Qltb_ge in Hage. rewrite Hage. reflexivity.
  - intros Ht Hage. unfold get_ftse_data, bind, get_world. rewrite Ht.
    unfold is_market_hours, bind, get_taipei_time, ret, now_epoch.
    cbn [tick ticks last_update_time].
    apply Qltb_lt in Hage. rewrite Hage. reflexivity.
  - intros Ht.
    destruct (refresh_leaves_snapshot w) as (b & w' & Hrun & Ht').
    destruct (ftse_data w') as [data|] eqn:Hd; [|discriminate].
    exists b, w', data. split; [exact Hrun|]. split; [exact Hd|].
    unfold get_ftse_data, bind, get_world. rewrite Ht, Hrun.
    unfold ret. rewrite Hd. reflexivity.
Qed.

End Refresh.

(** ** A run of the server *)

Section Scenario.

Local Open Scope string_scope.
Local Existing Instance decimal_builtins.

Lemma scenario_monotone (later : Q) (second : fetched) :
  1000 <= later -> clock_monotone (scenario later second).
Proof.
  intros Hl n m Hnm. cbn [time_time scenario].
  destruct (n <? 5)%nat eqn:En, (m <? 5)%nat eqn:Em; try lra.
  apply Nat.ltb_lt in Em. apply Nat.ltb_ge in En. lia.
Qed.

Lemma first_fetch_reachable (later : Q) (second : fetched) :
  reachable (scenario later second) (first_fetch later second).
Proof. apply reach_refresh, reach_start. Qed.

Example first_fetch_snapshot :
  let w := first_fetch 1200 (RequestFailed "timeout") in
  ticks w = 5%nat /\ last_update_time w = 1000 /\
  default ∅ (ftse_data w) !! "price" = Some (VNum 1637.25) /\
  default ∅ (ftse_data w) !! "change" = Some (VNum (-68.30)) /\
  default ∅ (ftse_data w) !! "changePercent" = Some (VNum (-4.00)) /\
  default ∅ (ftse_data w) !! "timestamp" = Some (VNum 1000) /\
  default ∅ (ftse_data w) !! "error" = None.
Proof. repeat split; reflexivity. Qed.

(** A snapshot captured at 1000, a refresh that fails at 1200: the handler
    is called after the two readings of the refresh. *)
Lemma reuse_within_window_witness :
  let env := scenario 1200 (RequestFailed "timeout") in
  let w := first_fetch 1200 (RequestFailed "timeout") in
  let data := default ∅ (ftse_data w) in
  get_ftse_data_from_histock env w =
    handle_data_error env "網絡錯誤: timeout" (tick (tick w)) /\
  exists w' data',
    handle_data_error env "網絡錯誤: timeout" (tick (tick w)) = (Ok true, w') /\
    ftse_data w' = Some data' /\
    data' !! "error" = Some (VStr "網絡錯誤: timeout") /\
    (forall k, k <> "error" -> data' !! k = data !! k) /\
    Forall (fun k => data' !! k = data !! k)
      ["price"; "change"; "changePercent"; "tx_price"; "tx_change";
       "source"; "timestamp"].
Proof.
  intros env w data. split.
  - apply (failed_refresh_is_fallback env w (tick (tick w))
             (RequestException "timeout")). reflexivity.
  - apply (reuse_within_window env (tick (tick w)) data 1000
             "網絡錯誤: timeout").
    + apply scenario_monotone. vm_compute. discriminate.
    + apply reach_tick, reach_tick, first_fetch_reachable.
    + reflexivity.
    + reflexivity.
    + vm_compute. reflexivity.
Defined.

(** A snapshot written at 1000, a failure at 1400. *)
Lemma default_when_absent_or_expired_witness :
  let env := scenario 1400 (RequestFailed "timeout") in
  let w := first_fetch 1400 (RequestFailed "timeout") in
  300 <= time_time env (ticks w) - last_update_time w /\
  exists w' data n,
    handle_data_error env "timeout" w = (Ok false, w') /\
    ftse_data w' = Some data /\
    (ticks w <= n < ticks w')%nat /\
    data !! "price" = Some (VNum 1637.5) /\
    data !! "change" = Some (VNum (-68.3)) /\
    data !! "changePercent" = Some (VNum (-4.0)) /\
    data !! "source" = Some (VStr "預設數據") /\
    data !! "tx_price" = Some (VNum (calculate_tx_price 1637.5)) /\
    data !! "tx_change" = Some (VNum (calculate_tx_change 1637.5)) /\
    data !! "timestamp" = Some (VNum (time_time env n)) /\
    data !! "error" = Some (VStr "timeout") /\
    feqb (calculate_tx_price 1637.5) 20110 = true /\
    feqb (calculate_tx_change 1637.5) (-7446) = true.
Proof.
  intros env w.
  assert (300 <= time_time env (ticks w) - last_update_time w) as Hage
    by (vm_compute; discriminate).
  split; [exact Hage|].
  apply (default_when_absent_or_expired env w "timeout"). right. exact Hage.
Defined.

Lemma sliver_monotone : clock_monotone sliver.
Proof.
  intros n m Hnm. cbn [time_time sliver].
  destruct (n <? 5)%nat eqn:E1, (m <? 5)%nat eqn:E2,
           (n <? 8)%nat eqn:E3, (m <? 8)%nat eqn:E4;
    try (vm_compute; discriminate);
    repeat match goal with
           | H : (_ <? _)%nat = true |- _ => apply Nat.ltb_lt in H
           | H : (_ <? _)%nat = false |- _ => apply Nat.ltb_ge in H
           end; lia.
Qed.

(** The claim that a failed refresh makes the default snapshot current
    whenever the last snapshot is 300 seconds old fails when age is taken
    from the capture time: the default snapshot stored by the first
    refresh has timestamp 1400 and was written at 1400.001; the second
    refresh fails at 1700.0005, when the snapshot is 300.0005 seconds old,
    and reuses it: the answer is True and the timestamp stays 1400. *)
Lemma default_when_expired_counterexample :
  let w := snd (get_ftse_data_from_histock sliver init_world) in
  let data := default ∅ (ftse_data w) in
  let r := get_ftse_data_from_histock sliver w in
  clock_monotone sliver /\ reachable sliver w /\
  ftse_data w = Some data /\
  data !! "timestamp" = Some (VNum 1400) /\
  last_update_time w = 1400.001 /\
  r = handle_data_error sliver "網絡錯誤: timeout" (tick (tick w)) /\
  time_time sliver (ticks (tick (tick w))) = 1700.0005 /\
  300 <= 1700.0005 - 1400 /\
  fst r = Ok true /\
  default ∅ (ftse_data (snd r)) !! "timestamp" = Some (VNum 1400) /\
  default ∅ (ftse_data (snd r)) !! "error"
    = Some (VStr "網絡錯誤: timeout") /\
  last_update_time (snd r) = 1400.001.
Proof.
  cbv zeta. split; [exact sliver_monotone|].
  split; [apply reach_refresh, reach_start|].
  repeat (split; [reflexivity|]).
  split; [vm_compute; discriminate|].
  repeat (split; [reflexivity|]). reflexivity.
Qed.

(** The claim that the price of every current snapshot is a fixed point of
    the quantizer fails when the price text of the page is "nan": the
    refresh succeeds and the price it stores is nan, which is not [==] to
    its quantization. *)
Lemma price_always_quantized_counterexample :
  let env := scenario 1200 nan_price_page in
  let w := first_fetch 1200 nan_price_page in
  let r := get_ftse_data_from_histock env w in
  reachable env (snd r) /\
  requests_get env (S (ticks w)) = nan_price_page /\
  fst r = Ok true /\
  default ∅ (ftse_data (snd r)) !! "price" = Some (VNum NaN) /\
  default ∅ (ftse_data (snd r)) !! "source" = Some (VStr "HiStock網站") /\
  default ∅ (ftse_data (snd r)) !! "error" = None /\
  round_to_quarter NaN = NaN /\
  feqb (round_to_quarter NaN) NaN = false.
Proof.
  cbv zeta. split; [apply reach_refresh, first_fetch_reachable|].
  repeat (split; [reflexivity|]). reflexivity.
Qed.

(** The claim that every failed refresh moves the last write time to the
    current time fails on the reuse path: after a refresh that fails at
    1200 the last write time is still 1000. *)
Lemma last_update_time_counterexample :
  let env := scenario 1200 (RequestFailed "timeout") in
  let w := first_fetch 1200 (RequestFailed "timeout") in
  let r := get_ftse_data_from_histock env w in
  requests_get env (S (ticks w)) = RequestFailed "timeout" /\
  fst r = Ok true /\
  default ∅ (ftse_data (snd r)) !! "error"
    = Some (VStr "網絡錯誤: timeout") /\
  last_update_time w = 1000 /\
  last_update_time (snd r) = 1000 /\
  (forall n, (ticks w <= n)%nat -> time_time env n = 1200) /\
  ~ last_update_time (snd r) == 1200.
Proof.
  cbv zeta. repeat (split; [reflexivity|]). split.
  - intros n Hn. cbn [time_time scenario].
    change (ticks (first_fetch 1200 (RequestFailed "timeout"))) with 5%nat in Hn.
    destruct (n <? 5)%nat eqn:E; [|reflexivity].
    apply Nat.ltb_lt in E. lia.
  - vm_compute. discriminate.
Qed.

Lemma last_update_time_after_failure_witness :
  let env := scenario 1200 (RequestFailed "timeout") in
  let w := first_fetch 1200 (RequestFailed "timeout") in
  last_update_time (snd (handle_data_error env "timeout" w))
    = last_update_time w.
Proof.
  intros env w.
  destruct (last_update_time_after_failure env w "timeout") as (_ & Hreuse & _).
  apply Hreuse. reflexivity.
Defined.

(** Reads ten seconds and two hundred seconds after the first refresh, and
    a read before any refresh. *)
Lemma get_ftse_data_policy_witness :
  (let env := scenario 1010 (RequestFailed "timeout") in
   let w := first_fetch 1010 (RequestFailed "timeout") in
   fst (get_ftse_data env w) = Ok (ftse_data w) /\
   threads (snd (get_ftse_data env w)) = threads w) /\
  (let env := scenario 1200 (RequestFailed "timeout") in
   let w := first_fetch 1200 (RequestFailed "timeout") in
   fst (get_ftse_data env w) = Ok (ftse_data w) /\
   threads (snd (get_ftse_data env w)) = S (threads w)) /\
  (let env := scenario 1200 (RequestFailed "timeout") in
   exists data, fst (get_ftse_data env init_world) = Ok (Some data)).
Proof.
  refine (conj _ (conj _ _)); cbv zeta.
  - destruct (get_ftse_data_policy (scenario 1010 (RequestFailed "timeout"))
                (first_fetch 1010 (RequestFailed "timeout"))) as (P & _ & _).
    rewrite P; [split; reflexivity | reflexivity | vm_compute; discriminate].
  - destruct (get_ftse_data_policy (scenario 1200 (RequestFailed "timeout"))
                (first_fetch 1200 (RequestFailed "timeout"))) as (_ & P & _).
    rewrite P; [split; reflexivity | reflexivity | vm_compute; reflexivity].
  - destruct (get_ftse_data_policy (scenario 1200 (RequestFailed "timeout"))
                init_world) as (_ & _ & P).
    destruct (P eq_refl) as (b & w' & data & _ & _ & ->).
    exists data. reflexivity.
Defined.

(** A second fetch whose price text is "n/a". *)
Lemma price_failure_falls_back_witness :
  let env := scenario 1200 bad_price_page in
  let w := first_fetch 1200 bad_price_page in
  exists msg,
    In msg price_messages /\
    get_ftse_data_from_histock env w =
      handle_data_error env msg (tick (tick w)).
Proof.
  intros env w.
  destruct (price_failure_falls_back env w
              (region (span "n/a" "clr-gr") (span "▼68.30" "clr-gr")
                 (span "-4.00%" "clr-gr")))
    as (msg & Hin & _ & _ & Hrun & _).
  - reflexivity.
  - reflexivity.
  - exists msg. split; assumption.
Defined.

Example price_failure_keeps_old_fields :
  let env := scenario 1200 bad_price_page in
  let w := first_fetch 1200 bad_price_page in
  let w' := snd (get_ftse_data_from_histock env w) in
  ftse_data w' =
    Some (<["error" := VStr "無法解析價格"]> (default ∅ (ftse_data w))).
Proof. reflexivity. Qed.

Lemma price_always_quantized_witness :
  let env := scenario 1400 (RequestFailed "timeout") in
  let w := snd (get_ftse_data_from_histock env
                  (first_fetch 1400 (RequestFailed "timeout"))) in
  exists price : pyfloat,
    default ∅ (ftse_data w) !! "price" = Some (VNum price) /\
    (price = NaN \/ feqb (round_to_quarter price) price = true).
Proof.
  intros env w.
  apply (price_always_quantized env w (default ∅ (ftse_data w))).
  - apply reach_refresh, first_fetch_reachable.
  - reflexivity.
Defined.

End Scenario.

(** * Further properties of the code *)

(** ** The quantizer as rounding to the nearest quarter *)

Section QuantizerMore.

(** On a non-negative finite value the quantizer is [floor(4 v + 1/2) / 4]. *)
Lemma round_to_quarter_closed_form (v : Q) :
  0 <= v -> round_to_quarter_try v == inject_Z (Qfloor (4 * v + 0.5)) / 4.
Proof.
  intros Hv.
  pose proof (round_to_quarter_ranges v) as (R0 & R1 & R2 & R3 & R4).
  destruct (py_int_split_nonneg v Hv) as [_ Hd].
  cbv zeta in *. set (i := py_int v) in *.
  assert (forall k : Z,
            inject_Z k <= 4 * (v - inject_Z i) + 0.5 < inject_Z k + 1 ->
            Qfloor (4 * v + 0.5) = (4 * i + k)%Z) as Hfloor.
  { intros k Hk. apply Qfloor_unique;
      rewrite inject_Z_plus, inject_Z_mult;
      change (inject_Z 4) with 4; lra. }
  destruct (Qlt_le_dec (v - inject_Z i) 0.125).
  { rewrite R0 by lra. rewrite (Hfloor 0%Z) by (change (inject_Z 0) with 0; lra).
    rewrite inject_Z_plus, inject_Z_mult.
    change (inject_Z 4) with 4; change (inject_Z 0) with 0. field. }
  destruct (Qlt_le_dec (v - inject_Z i) 0.375).
  { rewrite R1 by lra. rewrite (Hfloor 1%Z) by (change (inject_Z 1) with 1; lra).
    rewrite inject_Z_plus, inject_Z_mult.
    change (inject_Z 4) with 4; change (inject_Z 1) with 1. field. }
  destruct (Qlt_le_dec (v - inject_Z i) 0.625).
  { rewrite R2 by lra. rewrite (Hfloor 2%Z) by (change (inject_Z 2) with 2; lra).
    rewrite inject_Z_plus, inject_Z_mult.
    change (inject_Z 4) with 4; change (inject_Z 2) with 2. field. }
  destruct (Qlt_le_dec (v - inject_Z i) 0.875).
  { rewrite R3 by lra. rewrite (Hfloor 3%Z) by (change (inject_Z 3) with 3; lra).
    rewrite inject_Z_plus, inject_Z_mult.
    change (inject_Z 4) with 4; change (inject_Z 3) with 3. field. }
  rewrite R4 by lra. rewrite (Hfloor 4%Z) by (change (inject_Z 4) with 4; lra).
  rewrite inject_Z_plus, inject_Z_mult.
  change (inject_Z 4) with 4. field.
Qed.

Lemma round_to_quarter_try_nearest (v : Q) :
  0 <= v ->
  (exists n : Z, round_to_quarter_try v * 4 == inject_Z n) /\
  - 0.125 < round_to_quarter_try v - v <= 0.125.
Proof.
  intros Hv. split.
  - exists (Qfloor (4 * v + 0.5)).
    rewrite (round_to_quarter_closed_form v Hv). field.
  - pose proof (round_to_quarter_ranges v) as (R0 & R1 & R2 & R3 & R4).
    destruct (py_int_split_nonneg v Hv) as [_ Hd].
    cbv zeta in *. set (i := py_int v) in *.
    destruct (Qlt_le_dec (v - inject_Z i) 0.125); [rewrite R0; lra|].
    destruct (Qlt_le_dec (v - inject_Z i) 0.375); [rewrite R1; lra|].
    destruct (Qlt_le_dec (v - inject_Z i) 0.625); [rewrite R2; lra|].
    destruct (Qlt_le_dec (v - inject_Z i) 0.875); [rewrite R3; lra|].
    rewrite R4; lra.
Qed.

Lemma round_to_quarter_negative_whole (v : Q) :
  v < 0 -> round_to_quarter_try v == inject_Z (py_int v).
Proof.
  intros Hv.
  pose proof (round_to_quarter_ranges v) as (R0 & _).
  destruct (py_int_split_nonpos v) as [Hi Hd]; [lra|].
  cbv zeta in *. apply R0. lra.
Qed.

Lemma round_to_quarter_try_negative (v : Q) :
  v < 0 ->
  round_to_quarter_try v == inject_Z (py_int v) /\
  v <= round_to_quarter_try v < v + 1 /\
  round_to_quarter_try v <= 0.
Proof.
  intros Hv.
  pose proof (round_to_quarter_negative_whole v Hv) as E.
  destruct (py_int_split_nonpos v) as [Hi Hd]; [lra|].
  split; [exact E|]. rewrite E. split; [lra|].
  change 0 with (inject_Z 0). now rewrite <- Zle_Qle.
Qed.

Lemma round_to_quarter_try_monotone (v1 v2 : Q) :
  v1 <= v2 -> round_to_quarter_try v1 <= round_to_quarter_try v2.
Proof.
  intros Hle.
  destruct (Qlt_le_dec v1 0) as [N1|P1]; destruct (Qlt_le_dec v2 0) as [N2|P2].
  - pose proof (round_to_quarter_negative_whole v1 N1) as E1.
    pose proof (round_to_quarter_negative_whole v2 N2) as E2.
    rewrite E1, E2, !py_int_nonpos by lra.
    rewrite <- Zle_Qle.
    assert (Qfloor (- v2) <= Qfloor (- v1))%Z by (apply Qfloor_resp_le; lra).
    lia.
  - assert (round_to_quarter_try v1 <= 0) as H1.
    { rewrite (round_to_quarter_negative_whole v1 N1).
      destruct (py_int_split_nonpos v1) as [Hi _]; [lra|].
      change 0 with (inject_Z 0). now rewrite <- Zle_Qle. }
    pose proof (round_to_quarter_closed_form v2 P2) as C2.
    assert (0 <= inject_Z (Qfloor (4 * v2 + 0.5))).
    { change 0 with (inject_Z 0). rewrite <- Zle_Qle.
      change 0%Z with (Qfloor 0). apply Qfloor_resp_le. lra. }
    rewrite C2. apply Qle_trans with 0; [exact H1|].
    apply Qle_shift_div_l; [reflexivity | lra].
  - lra.
  - rewrite (round_to_quarter_closed_form v1 P1),
            (round_to_quarter_closed_form v2 P2).
    assert (Qfloor (4 * v1 + 0.5) <= Qfloor (4 * v2 + 0.5))%Z as F
      by (apply Qfloor_resp_le; lra).
    rewrite Zle_Qle in F.
    apply Qle_shift_div_l; [reflexivity|].
    set (a := inject_Z (Qfloor (4 * v1 + 0.5))) in *.
    set (b := inject_Z (Qfloor (4 * v2 + 0.5))) in *.
    assert (a / 4 * 4 == a) as -> by field. exact F.
Qed.

Lemma round_to_quarter_try_fixed :
  (forall v, round_to_quarter_try (round_to_quarter_try v) == round_to_quarter_try v) /\
  (forall v, 0 <= v ->
     (round_to_quarter_try v == v <-> exists n : Z, v * 4 == inject_Z n)).
Proof.
  split; [apply round_to_quarter_idempotent|].
  intros v Hv. split.
  - intros E. pose proof (round_to_quarter_closed_form v Hv) as C.
    rewrite E in C. exists (Qfloor (4 * v + 0.5)).
    set (X := inject_Z (Qfloor (4 * v + 0.5))) in *.
    rewrite C. field.
  - intros [n Hn]. rewrite (round_to_quarter_closed_form v Hv).
    assert (Qfloor (4 * v + 0.5) = n) as ->.
    { apply Qfloor_unique; lra. }
    rewrite <- Hn. field.
Qed.

Lemma fleb_fin (a b : Q) : fleb (Fin a) (Fin b) = true <-> a <= b.
Proof.
  unfold fleb, fltb, feqb. rewrite orb_true_iff, Qltb_lt, Qeq_bool_iff.
  rewrite Qle_lteq. tauto.
Qed.

Lemma feqb_fin (a b : Q) : feqb (Fin a) (Fin b) = true <-> a == b.
Proof. apply Qeq_bool_iff. Qed.

(** X1: on a finite non-negative price the result is finite, a whole
    number of quarters, and lies within an eighth of the input, a value
    exactly between two quarters going up. *)
Theorem round_to_quarter_nearest (v : Q) :
  0 <= v ->
  exists r : Q,
    round_to_quarter v = Fin r /\
    (exists n : Z, r * 4 == inject_Z n) /\
    - 0.125 < r - v <= 0.125.
Proof.
  intros Hv. exists (round_to_quarter_try v). split; [reflexivity|].
  exact (round_to_quarter_try_nearest v Hv).
Qed.

Lemma round_to_quarter_nearest_witness :
  exists r : Q,
    round_to_quarter 1637.13 = Fin r /\
    (exists n : Z, r * 4 == inject_Z n) /\
    - 0.125 < r - 1637.13 <= 0.125.
Proof. apply (round_to_quarter_nearest 1637.13). discriminate. Defined.

(** X2: a finite negative value is not rounded to a quarter but cut to its
    whole part, toward zero: -1.9 goes to -1. *)
Theorem round_to_quarter_negative (v : Q) :
  v < 0 ->
  exists r : Q,
    round_to_quarter v = Fin r /\
    r == inject_Z (py_int v) /\
    v <= r < v + 1 /\
    r <= 0.
Proof.
  intros Hv. exists (round_to_quarter_try v). split; [reflexivity|].
  exact (round_to_quarter_try_negative v Hv).
Qed.

Lemma round_to_quarter_negative_witness :
  exists r : Q, round_to_quarter (-1.9) = Fin r /\ r == -1.
Proof.
  destruct (round_to_quarter_negative (-1.9)) as (r & Er & E & _);
    [reflexivity|].
  exists r. split; [exact Er | rewrite E; reflexivity].
Defined.

(** X3: the quantizer keeps the order of its inputs, the infinities
    included. *)
Theorem round_to_quarter_monotone (x y : pyfloat) :
  fleb x y = true -> fleb (round_to_quarter x) (round_to_quarter y) = true.
Proof.
  destruct x as [a|b1|], y as [b|b2|]; cbn [round_to_quarter]; auto.
  rewrite !fleb_fin. apply round_to_quarter_try_monotone.
Qed.

Lemma round_to_quarter_monotone_witness :
  fleb (round_to_quarter 1637.12) (round_to_quarter 1637.13) = true.
Proof. apply round_to_quarter_monotone. reflexivity. Defined.

(** X4: quantizing twice gives the value of quantizing once, [==] to it
    for every input but nan; the finite non-negative values the quantizer
    leaves as they are are exactly the whole numbers of quarters; and an
    infinity or nan is returned as it is. *)
Theorem round_to_quarter_fixed_points :
  (forall x, same (round_to_quarter (round_to_quarter x)) (round_to_quarter x)) /\
  (forall x, x <> NaN ->
     feqb (round_to_quarter (round_to_quarter x)) (round_to_quarter x) = true) /\
  (forall v : Q, 0 <= v ->
     (feqb (round_to_quarter v) v = true <->
      exists n : Z, v * 4 == inject_Z n)) /\
  (forall x, is_finite x = false -> round_to_quarter x = x).
Proof.
  destruct round_to_quarter_try_fixed as [Hidem Hfix].
  split; [|split; [|split]].
  - intros [v|b|]; cbn; auto.
  - intros [v|b|] Hx; cbn.
    + apply Qeq_bool_iff, Hidem.
    + apply Bool.eqb_reflx.
    + now elim Hx.
  - intros v Hv. cbn [round_to_quarter]. rewrite feqb_fin. now apply Hfix.
  - intros [v|b|] Hx; [discriminate | reflexivity | reflexivity].
Qed.

Lemma round_to_quarter_fixed_points_witness :
  feqb (round_to_quarter 1637.25) 1637.25 = true.
Proof.
  destruct round_to_quarter_fixed_points as (_ & _ & Hfix & _).
  apply (Hfix 1637.25); [discriminate|]. exists 6549%Z. reflexivity.
Defined.

End QuantizerMore.

(** ** The derived values as rounding of a linear map *)

Section DerivedMore.

Lemma py_round0_near (x : Q) :
  exists n : Z, py_round0 x = inject_Z n /\ - 0.5 <= inject_Z n - x <= 0.5.
Proof.
  unfold py_round0. cbv zeta.
  pose proof (Qfloor_le x) as F1. pose proof (Qlt_floor x) as F2.
  rewrite inject_Z_plus in F2. change (inject_Z 1) with 1 in F2.
  set (f := Qfloor x) in *.
  destruct (Qltb (x - inject_Z f) 0.5) eqn:E1.
  { apply Qltb_lt in E1. exists f. split; [reflexivity | lra]. }
  apply Qltb_ge in E1.
  destruct (Qltb 0.5 (x - inject_Z f)) eqn:E2.
  { apply Qltb_lt in E2. exists (f + 1)%Z. split; [reflexivity|].
    rewrite inject_Z_plus. change (inject_Z 1) with 1. lra. }
  apply Qltb_ge in E2.
  destruct (Z.even f).
  - exists f. split; [reflexivity | lra].
  - exists (f + 1)%Z. split; [reflexivity|].
    rewrite inject_Z_plus. change (inject_Z 1) with 1. lra.
Qed.

Lemma py_round0_monotone (x y : Q) : x <= y -> py_round0 x <= py_round0 y.
Proof.
  intros Hle.
  assert (Qfloor x <= Qfloor y)%Z as Hf by now apply Qfloor_resp_le.
  destruct (Z.eq_dec (Qfloor x) (Qfloor y)) as [E|N].
  - unfold py_round0. cbv zeta. rewrite E. set (f := Qfloor y).
    assert (inject_Z f <= inject_Z (f + 1)) as Hstep.
    { rewrite inject_Z_plus. change (inject_Z 1) with 1. lra. }
    destruct (Qltb (x - inject_Z f) 0.5) eqn:X1.
    { repeat match goal with
             | |- context [if ?b then _ else _] => destruct b
             end; lra. }
    apply Qltb_ge in X1.
    assert (Qltb (y - inject_Z f) 0.5 = false) as -> by (apply Qltb_ge; lra).
    destruct (Qltb 0.5 (x - inject_Z f)) eqn:X2.
    { apply Qltb_lt in X2.
      assert (Qltb 0.5 (y - inject_Z f) = true) as -> by (apply Qltb_lt; lra).
      lra. }
    destruct (Qltb 0.5 (y - inject_Z f)); destruct (Z.even f); lra.
  - destruct (py_round0_near x) as (n & -> & Hn).
    destruct (py_round0_near y) as (m & -> & Hm).
    pose proof (Qfloor_le x) as F1. pose proof (Qlt_floor x) as F2.
    pose proof (Qfloor_le y) as G1. pose proof (Qlt_floor y) as G2.
    assert (Qfloor x + 1 <= Qfloor y)%Z as Hgap by lia.
    rewrite Zle_Qle in Hgap.
    rewrite <- Zle_Qle.
    assert (inject_Z n < inject_Z (m + 1)) as Hlt.
    { unfold py_round0 in *.
      assert (inject_Z n <= inject_Z (Qfloor x + 1)) as A.
      { destruct (Z_le_gt_dec n (Qfloor x + 1)) as [L|G];
          [now rewrite <- Zle_Qle|].
        assert (Qfloor x + 2 <= n)%Z as G' by lia. rewrite Zle_Qle in G'.
        rewrite !inject_Z_plus in *.
        change (inject_Z 1) with 1 in *. change (inject_Z 2) with 2 in *. lra. }
      assert (inject_Z (Qfloor y) < inject_Z (m + 1)) as B.
      { destruct (Z_lt_le_dec (Qfloor y) (m + 1)) as [L|G];
          [now rewrite <- Zlt_Qlt|].
        rewrite Zle_Qle in G. rewrite !inject_Z_plus in *.
        change (inject_Z 1) with 1 in *. lra. }
      lra. }
    rewrite <- Zlt_Qlt in Hlt. lia.
Qed.

(** X6: a higher index price never gives a lower derived price or a lower
    derived offset, the infinities included. *)
Theorem calculate_tx_monotone (p q : pyfloat) :
  fleb p q = true ->
  fleb (calculate_tx_price p) (calculate_tx_price q) = true /\
  fleb (calculate_tx_change p) (calculate_tx_change q) = true.
Proof.
  destruct p as [a|b1|], q as [b|b2|];
    rewrite ?calculate_tx_price_inf, ?calculate_tx_change_inf,
            ?calculate_tx_price_fin, ?calculate_tx_change_fin;
    try (cbn; intros E; split; exact E).
  rewrite !fleb_fin. intros Hle.
  assert (py_round0 (a * conversion_factor)
            <= py_round0 (b * conversion_factor)) as Hp.
  { apply py_round0_monotone. unfold conversion_factor. nra. }
  split; [exact Hp|]. apply py_round0_monotone. lra.
Qed.

Lemma calculate_tx_monotone_witness :
  fleb (calculate_tx_price 1637.25) (calculate_tx_price 1637.5) = true /\
  fleb (calculate_tx_change 1637.25) (calculate_tx_change 1637.5) = true.
Proof. apply calculate_tx_monotone. reflexivity. Defined.

End DerivedMore.

(** ** Failure modes of the extractor and of the refresh *)

Section ExtractorMore.

Context `{Builtins} (env : environment).
Local Open Scope string_scope.

Lemma extractor_raises (pi : price_info) :
  (forall e, extract_price pi = Raise e ->
     exists m, e = FTSEDataError m /\ In m price_messages) /\
  (forall e, extract_change pi = Raise e ->
     (exists m, e = FTSEDataError m /\ In m change_messages) \/
     e = OtherException "list index out of range") /\
  (forall e, extract_percent pi = Raise e ->
     (exists m, e = FTSEDataError m /\ In m percent_messages) \/
     e = OtherException "list index out of range").
Proof.
  unfold extract_price, extract_change, extract_percent, find_element,
    float_of, first_class, price_messages, change_messages, percent_messages.
  refine (conj _ (conj _ _)); intros e.
  - destruct (Price1_lbTPrice pi) as [[el|]|]; cbn [obind reraise_parse].
    + destruct (py_float _); cbn [obind reraise_parse]; intros [= <-].
      eexists; split; [reflexivity | cbn; tauto].
    + intros [= <-]. eexists; split; [reflexivity | cbn; tauto].
    + intros [= <-]. eexists; split; [reflexivity | cbn; tauto].
  - destruct (Price1_lbTChange pi) as [[el|]|]; cbn [obind reraise_parse].
    + destruct (py_float _); cbn [obind reraise_parse].
      * destruct (negb _); [|discriminate].
        destruct (Str.contains _ _); [discriminate|].
        destruct (class_attr el) as [[|c l]|]; cbn [obind reraise_parse];
          try (destruct (String.eqb _ _); discriminate).
        intros [= <-]. now right.
      * intros [= <-]. left. eexists; split; [reflexivity | cbn; tauto].
    + intros [= <-]. left. eexists; split; [reflexivity | cbn; tauto].
    + intros [= <-]. left. eexists; split; [reflexivity | cbn; tauto].
  - destruct (Price1_lbTPercent pi) as [[el|]|]; cbn [obind reraise_parse].
    + destruct (py_float _); cbn [obind reraise_parse].
      * destruct (negb _); [|discriminate].
        destruct (Str.contains _ _); [discriminate|].
        destruct (class_attr el) as [[|c l]|]; cbn [obind reraise_parse];
          try (destruct (String.eqb _ _); discriminate).
        intros [= <-]. now right.
      * intros [= <-]. left. eexists; split; [reflexivity | cbn; tauto].
    + intros [= <-]. left. eexists; split; [reflexivity | cbn; tauto].
    + intros [= <-]. left. eexists; split; [reflexivity | cbn; tauto].
Qed.

(** X7: the only exceptions that leave the three extractors are
    FTSEDataError with one of the two messages of the field and, for change
    and percent, the index error of an empty class list; ValueError and
    AttributeError never leave them. *)
Theorem extractor_failure_modes (pi : price_info) :
  (forall e, extract_price pi = Raise e ->
     exists m, e = FTSEDataError m /\ In m price_messages) /\
  (forall e, extract_change pi = Raise e ->
     (exists m, e = FTSEDataError m /\ In m change_messages) \/
     e = OtherException "list index out of range") /\
  (forall e, extract_percent pi = Raise e ->
     (exists m, e = FTSEDataError m /\ In m percent_messages) \/
     e = OtherException "list index out of range").
Proof. exact (extractor_raises pi ). Qed.

Lemma change_fails_raises (pi : price_info) :
  change_fails pi ->
  exists msg, In msg change_messages /\
              extract_change pi = Raise (FTSEDataError msg).
Proof.
  unfold change_fails, extract_change, find_element, float_of, change_messages.
  destruct (Price1_lbTChange pi) as [[el|]|]; cbn [obind reraise_parse].
  - intros ->. cbn [obind reraise_parse]. eexists. split; [|reflexivity].
    cbn; tauto.
  - intros _. eexists. split; [|reflexivity]. cbn; tauto.
  - intros _. eexists. split; [|reflexivity]. cbn; tauto.
Qed.

Lemma percent_fails_raises (pi : price_info) :
  percent_fails pi ->
  exists msg, In msg percent_messages /\
              extract_percent pi = Raise (FTSEDataError msg).
Proof.
  unfold percent_fails, extract_percent, find_element, float_of,
    percent_messages.
  destruct (Price1_lbTPercent pi) as [[el|]|]; cbn [obind reraise_parse].
  - intros ->. cbn [obind reraise_parse]. eexists. split; [|reflexivity].
    cbn; tauto.
  - intros _. eexists. split; [|reflexivity]. cbn; tauto.
  - intros _. eexists. split; [|reflexivity]. cbn; tauto.
Qed.

(** X9: with the price extracted, a change field that cannot be located or
    parsed hands one of the change messages to the fallback handler, and
    with price and change extracted a failing percent field hands over one
    of the percent messages; the extracted fields are dropped. *)
Theorem later_field_failure_falls_back (w : world) (pi : price_info)
    (p : pyfloat) :
  requests_get env (S (ticks w)) = Soup (Some pi) ->
  extract_price pi = Ok p ->
  (change_fails pi ->
   exists msg, In msg change_messages /\
     get_ftse_data_from_histock env w =
       handle_data_error env msg (tick (tick w))) /\
  (forall c, extract_change pi = Ok c -> percent_fails pi ->
   exists msg, In msg percent_messages /\
     get_ftse_data_from_histock env w =
       handle_data_error env msg (tick (tick w))).
Proof.
  intros Hget Hp. split.
  - intros Hc. destruct (change_fails_raises pi Hc) as (msg & Hin & Hex).
    exists msg. split; [exact Hin|].
    unfold get_ftse_data_from_histock, try_except, fetch_and_update, bind,
      now_epoch, lift. cbn [tick ticks]. rewrite Hget, Hp, Hex. reflexivity.
  - intros c Hc Hpc.
    destruct (percent_fails_raises pi Hpc) as (msg & Hin & Hex).
    exists msg. split; [exact Hin|].
    unfold get_ftse_data_from_histock, try_except, fetch_and_update, bind,
      now_epoch, lift. cbn [tick ticks]. rewrite Hget, Hp, Hc, Hex.
    reflexivity.
Qed.

End ExtractorMore.

(** ** What a refresh leaves in the store *)

Section RefreshMore.

Context `{Builtins} (env : environment).
Local Open Scope string_scope.

Lemma truthy_lookup (m : gmap string pyval) (k : string) (v : pyval) :
  m !! k = Some v -> truthy (Some m) = true.
Proof.
  intros Hk. unfold truthy. apply negb_true_iff, bool_decide_eq_false.
  intros E. assert (k ∈ dom m) as Hin by (apply elem_of_dom; eauto).
  rewrite E in Hin. set_solver.
Qed.

Lemma handle_data_error_result (w : world) (msg : string) :
  exists b w' data,
    handle_data_error env msg w = (Ok b, w') /\
    ftse_data w' = Some data /\
    data !! "error" = Some (VStr msg) /\
    threads w' = threads w.
Proof.
  destruct (handle_data_error_paths env msg w)
    as [(data & _ & _ & _ & ->) | (w0 & Hw0 & ->)].
  - eexists _, _, _. split; [reflexivity|]. split; [reflexivity|].
    split; [apply lookup_insert_eq | reflexivity].
  - rewrite use_default_run. eexists _, _, _. split; [reflexivity|].
    split; [reflexivity|]. split; [reflexivity|].
    destruct Hw0 as [-> | ->]; reflexivity.
Qed.

(** X10: the fallback handler never raises and always leaves a snapshot
    that carries the message it was given under ['error']; it starts no
    thread. *)
Theorem handle_data_error_annotates (w : world) (msg : string) :
  exists b w' data,
    handle_data_error env msg w = (Ok b, w') /\
    ftse_data w' = Some data /\
    data !! "error" = Some (VStr msg) /\
    threads w' = threads w.
Proof. exact (handle_data_error_result w msg). Qed.

Lemma successful_fetch_run (w : world) (pi : price_info)
    (p c cp : pyfloat) :
  requests_get env (S (ticks w)) = Soup (Some pi) ->
  extract_price pi = Ok p -> extract_change pi = Ok c ->
  extract_percent pi = Ok cp ->
  fetch_and_update env w =
    (Ok true,
     snd (update_ftse_data env p c cp "HiStock網站" (calculate_tx_price p)
            (calculate_tx_change p) (tick (tick w)))).
Proof.
  intros Hget Hp Hc Hcp.
  unfold fetch_and_update, bind, now_epoch, lift. cbn [tick ticks].
  rewrite Hget, Hp, Hc, Hcp. reflexivity.
Qed.

(** X11: when the page has its region and the three fields are extracted,
    the refresh answers True and replaces the snapshot by a fresh one: the
    extracted fields, the live source, the derived values of the new price,
    no ['error'] key, and a timestamp that is also the new last write
    time.  The price is what the quantizer returned: a fixed point of it,
    or nan when the price text was read as nan. *)
Theorem successful_refresh (w : world) (pi : price_info)
    (p c cp : pyfloat) :
  requests_get env (S (ticks w)) = Soup (Some pi) ->
  extract_price pi = Ok p -> extract_change pi = Ok c ->
  extract_percent pi = Ok cp ->
  exists w' data,
    get_ftse_data_from_histock env w = (Ok true, w') /\
    ftse_data w' = Some data /\
    data !! "price" = Some (VNum p) /\
    data !! "change" = Some (VNum c) /\
    data !! "changePercent" = Some (VNum cp) /\
    data !! "source" = Some (VStr "HiStock網站") /\
    data !! "tx_price" = Some (VNum (calculate_tx_price p)) /\
    data !! "tx_change" = Some (VNum (calculate_tx_change p)) /\
    data !! "error" = None /\
    data !! "timestamp" = Some (VNum (last_update_time w')) /\
    last_update_time w' = time_time env (2 + ticks w) /\
    (exists v, p = round_to_quarter v) /\
    (p = NaN \/ feqb (round_to_quarter p) p = true).
Proof.
  intros Hget Hp Hc Hcp.
  unfold get_ftse_data_from_histock, try_except.
  rewrite (successful_fetch_run w pi p c cp Hget Hp Hc Hcp).
  rewrite update_ftse_data_run. cbn [snd].
  eexists _, _. split; [reflexivity|]. split; [reflexivity|].
  repeat (split; [reflexivity|]).
  destruct (extract_price_quantized pi p Hp) as [v ->].
  split; [eauto | apply round_to_quarter_stable].
Qed.

(** X12: a refresh never raises and always leaves a snapshot, and that
    snapshot lacks the ['error'] key exactly when the fetch and the
    extraction succeeded. *)
Theorem refresh_error_iff_failure (w : world) :
  exists b w' data,
    get_ftse_data_from_histock env w = (Ok b, w') /\
    ftse_data w' = Some data /\
    ((exists w2, fetch_and_update env w = (Ok true, w2)) <->
     data !! "error" = None).
Proof.
  destruct (fetch_and_update_outcome env w)
    as [(v & c & cp & Hok) | (e & Hraise)].
  - unfold get_ftse_data_from_histock, try_except. rewrite Hok.
    rewrite update_ftse_data_run. cbn [snd].
    eexists _, _, _. split; [reflexivity|]. split; [reflexivity|].
    split; [reflexivity | eauto].
  - destruct (failed_refresh_is_fallback env w _ e Hraise) as [_ ->].
    destruct (handle_data_error_paths env (error_message_of e) (tick (tick w)))
      as [(data & _ & _ & _ & ->) | (w0 & _ & ->)].
    + eexists _, _, _. split; [reflexivity|]. split; [reflexivity|].
      rewrite lookup_insert_eq. rewrite Hraise.
      split; [intros [w2 [=]] | discriminate].
    + rewrite use_default_run.
      eexists _, _, _. split; [reflexivity|]. split; [reflexivity|].
      rewrite Hraise. split; [intros [w2 [=]] | discriminate].
Qed.

(** X13: reusing a snapshot does not restart its validity window.  After a
    failure that reused the snapshot, with nothing written in between, a
    failure 300 seconds or more after the last write before the first
    failure takes the default path. *)
Theorem reuse_does_not_extend_window (w w1 w2 : world) (msg1 msg2 : string) :
  handle_data_error env msg1 w = (Ok true, w1) ->
  ftse_data w2 = ftse_data w1 ->
  last_update_time w2 = last_update_time w1 ->
  300 <= time_time env (ticks w2) - last_update_time w ->
  exists w3 data,
    handle_data_error env msg2 w2 = (Ok false, w3) /\
    ftse_data w3 = Some data /\
    data !! "source" = Some (VStr "預設數據").
Proof.
  intros H1 Hd Hlut Hage.
  destruct (handle_data_error_paths env msg1 w)
    as [(data & _ & _ & _ & E) | (w0 & _ & E)].
  - rewrite E in H1. injection H1 as <-.
    cbn [ftse_data last_update_time] in *.
    rewrite handle_data_error_expired.
    + rewrite use_default_run. eexists _, _.
      split; [reflexivity|]. split; reflexivity.
    + rewrite Hd. apply truthy_insert.
    + rewrite Hlut. exact Hage.
  - rewrite E, use_default_run in H1. discriminate.
Qed.

(** X14: of two failures in a row that both reuse the snapshot only the
    message of the second is kept; the store is as if the second failure
    alone had happened. *)
Theorem second_failure_overwrites_error (w w1 w2 : world) (data : gmap string pyval)
    (msg1 msg2 : string) :
  ftse_data w = Some data ->
  handle_data_error env msg1 w = (Ok true, w1) ->
  ftse_data w2 = ftse_data w1 ->
  last_update_time w2 = last_update_time w1 ->
  time_time env (ticks w2) - last_update_time w < 300 ->
  exists w3,
    handle_data_error env msg2 w2 = (Ok true, w3) /\
    ftse_data w3 = Some (<["error" := VStr msg2]> data) /\
    last_update_time w3 = last_update_time w.
Proof.
  intros Hdata H1 Hd Hlut Hage.
  destruct (handle_data_error_paths env msg1 w)
    as [(data' & Hd' & _ & _ & E) | (w0 & _ & E)].
  - rewrite E in H1. injection H1 as <-.
    rewrite Hdata in Hd'. injection Hd' as <-.
    cbn [ftse_data last_update_time] in *.
    rewrite (handle_data_error_reuse env msg2 w2 _ Hd).
    + eexists. split; [reflexivity|]. cbn [ftse_data last_update_time].
      split; [now rewrite insert_insert_eq | exact Hlut].
    + apply truthy_insert.
    + rewrite Hlut. exact Hage.
  - rewrite E, use_default_run in H1. discriminate.
Qed.

(** X15: the default snapshot is itself reused.  After a failure that took
    the default path, with nothing written in between, a failure less than
    300 seconds after that write answers True although the data it keeps
    are the default ones. *)
Theorem default_snapshot_is_reused (w w1 w2 : world) (msg1 msg2 : string) :
  handle_data_error env msg1 w = (Ok false, w1) ->
  ftse_data w2 = ftse_data w1 ->
  last_update_time w2 = last_update_time w1 ->
  time_time env (ticks w2) - last_update_time w1 < 300 ->
  exists w3 data,
    handle_data_error env msg2 w2 = (Ok true, w3) /\
    ftse_data w3 = Some data /\
    data !! "source" = Some (VStr "預設數據") /\
    data !! "price" = Some (VNum 1637.5) /\
    data !! "error" = Some (VStr msg2).
Proof.
  intros H1 Hd Hlut Hage.
  destruct (handle_data_error_paths env msg1 w)
    as [(data & _ & _ & _ & E) | (w0 & _ & E)].
  - rewrite E in H1. discriminate.
  - rewrite E, use_default_run in H1. injection H1 as <-.
    cbn [ftse_data last_update_time] in *.
    rewrite (handle_data_error_reuse env msg2 w2 _ Hd).
    + eexists _, _. split; [reflexivity|]. split; [reflexivity|].
      split; [reflexivity|]. split; [reflexivity|]. apply lookup_insert_eq.
    + apply truthy_insert.
    + rewrite Hlut. exact Hage.
Qed.

End RefreshMore.

(** ** Invariants of the snapshot, with the live writer as the code calls it *)

Section LiveInvariant.

Context `{Builtins} (env : environment).
Local Open Scope string_scope.

Variable I : option (gmap string pyval) -> Q -> Prop.

(** The successful fetch calls [update_ftse_data] with the live source and
    the derived values of the price it stores. *)
Hypothesis I_start : I None 0.
Hypothesis I_live :
  forall v c cp t tp open,
    I (Some (live_data (round_to_quarter v) c cp "HiStock網站"
               (calculate_tx_price (round_to_quarter v))
               (calculate_tx_change (round_to_quarter v)) t tp open)) t.
Hypothesis I_default :
  forall msg n m tp open, (n <= m)%nat ->
    I (Some (default_data msg (time_time env n) tp open)) (time_time env m).
Hypothesis I_setitem :
  forall d lut k v,
    k = "error" \/ k = "request_time" \/ k = "server_time" ->
    I (Some d) lut -> I (Some (<[k := v]> d)) lut.

Lemma live_get_ftse_data_from_histock :
  triple I (get_ftse_data_from_histock env) anything.
Proof.
  intros w Hw. split; [|destruct (fst _); exact Logic.I].
  destruct (fetch_and_update_outcome env w)
    as [(v & c & cp & Hok) | (e & Hraise)].
  - unfold get_ftse_data_from_histock, try_except. rewrite Hok.
    rewrite update_ftse_data_run. cbn [snd]. unfold holds.
    cbn [ftse_data last_update_time]. apply I_live.
  - destruct (failed_refresh_is_fallback env w _ e Hraise) as [_ ->].
    apply (triple_handle_data_error env I I_default I_setitem).
    exact Hw.
Qed.

Lemma live_get_ftse_data : triple I (get_ftse_data env) anything.
Proof.
  unfold get_ftse_data.
  eapply (triple_bind I); [apply triple_get_world|]. intros w0 _.
  apply triple_if.
  - eapply (triple_bind I); [apply triple_is_market_hours|]. intros open _.
    cbv zeta.
    eapply (triple_bind I); [apply triple_now_epoch|]. intros now _.
    eapply (triple_bind I).
    { apply (triple_if I _ _ _ anything);
        [apply triple_start_refresh_thread | now apply triple_ret]. }
    intros _ _. now apply triple_ret.
  - eapply (triple_bind I); [apply live_get_ftse_data_from_histock|].
    intros _ _.
    eapply (triple_bind I); [apply triple_get_world|]. intros w' _.
    now apply triple_ret.
Qed.

Lemma live_api_get_ftse_data force_refresh :
  triple I (api_get_ftse_data env force_refresh) anything.
Proof.
  unfold api_get_ftse_data. apply triple_try.
  - eapply (triple_bind I); [apply live_get_ftse_data|]. intros data _.
    eapply (triple_bind I) with (mid := anything).
    { destruct force_refresh; [now apply triple_ret|].
      eapply (triple_bind I); [apply triple_now_epoch|]. intros now _.
      eapply (triple_bind I); [apply (triple_lift I _ anything); easy|].
      intros [s|ts|b] _; try apply triple_raise.
      eapply (triple_bind I); [apply triple_is_market_hours|]. intros open _.
      now apply triple_ret. }
    intros stale _.
    eapply (triple_bind I) with (mid := anything).
    { destruct stale; [|now apply triple_ret].
      eapply (triple_bind I); [apply live_get_ftse_data_from_histock|].
      intros _ _.
      eapply (triple_bind I); [apply live_get_ftse_data|]. intros _ _.
      now apply triple_ret. }
    intros _ _.
    eapply (triple_bind I); [apply triple_now_epoch|]. intros rt _.
    eapply (triple_bind I);
      [apply (triple_setitem I I_setitem); tauto|]. intros _ _.
    eapply (triple_bind I); [apply triple_server_strftime|]. intros st _.
    eapply (triple_bind I);
      [apply (triple_setitem I I_setitem); tauto|]. intros _ _.
    eapply (triple_bind I); [apply triple_get_world|]. intros w' _.
    now apply triple_ret.
  - intros e h [= <-].
    eapply (triple_bind I); [apply triple_now_epoch|]. intros ts _.
    eapply (triple_bind I); [apply triple_server_strftime|]. intros st _.
    now apply triple_ret.
Qed.

Lemma reachable_holds_live (w : world) : reachable env w -> holds I w.
Proof.
  induction 1 as [|w Hr IH|w Hr IH|w Hr IH|w Hr IH|w b Hr IH].
  - exact I_start.
  - exact IH.
  - apply (live_get_ftse_data_from_histock w IH).
  - unfold background_turn.
    apply (triple_bind I _ _ anything anything); auto.
    + apply triple_is_market_hours.
    + intros _ _. apply live_get_ftse_data_from_histock.
  - apply (live_get_ftse_data w IH).
  - apply (live_api_get_ftse_data b w IH).
Qed.

End LiveInvariant.

Section SnapshotInvariants.

Context `{Builtins} (env : environment).
Local Open Scope string_scope.

Lemma lookup_insert_other (d : gmap string pyval) (k k' : string) (v : pyval) :
  k = "error" \/ k = "request_time" \/ k = "server_time" ->
  In k' snapshot_keys -> <[k := v]> d !! k' = d !! k'.
Proof.
  intros Hk Hk'. apply lookup_insert_ne. unfold snapshot_keys in Hk'.
  cbn [In] in Hk'.
  destruct Hk as [-> | [-> | ->]];
    repeat (destruct Hk' as [<- | Hk']; [discriminate|]); destruct Hk'.
Qed.

Lemma reachable_derived_from_price (w : world) :
  reachable env w -> derived_from_price (ftse_data w) (last_update_time w).
Proof.
  apply (reachable_holds_live env derived_from_price).
  - intros m [=].
  - intros v c cp t tp open m [= <-]. eexists. repeat split.
  - intros msg n m tp open _ d [= <-]. eexists. repeat split.
  - intros d lut k v Hk Hd m [= <-].
    destruct (Hd d eq_refl) as (p & Hp & Htx & Htc). exists p.
    rewrite !(lookup_insert_other d k _ v Hk) by (cbn; tauto). auto.
Qed.

Lemma reachable_provenance (w : world) :
  reachable env w -> provenance (ftse_data w) (last_update_time w).
Proof.
  apply (reachable_holds_live env provenance).
  - intros m [=].
  - intros v c cp t tp open m [= <-].
    split; [reflexivity|]. split; [reflexivity|]. left. reflexivity.
  - intros msg n m tp open _ d [= <-].
    split; [reflexivity|]. split; [reflexivity|]. right.
    repeat (split; [reflexivity|]). eexists. reflexivity.
  - intros d lut k v Hk Hd m [= <-].
    destruct (Hd d eq_refl) as (Hc & Hn & Hs).
    rewrite !(lookup_insert_other d k _ v Hk) by (cbn; tauto).
    split; [exact Hc|]. split; [exact Hn|].
    destruct Hs as [Hs | (Hs & Hp & Hch & Hpc & He)]; [now left|].
    right. repeat (split; [assumption|]).
    destruct (decide (k = "error")) as [-> | Hne].
    + rewrite lookup_insert_eq. eauto.
    + rewrite lookup_insert_ne by congruence. exact He.
Qed.

End SnapshotInvariants.

Section SnapshotInvariantsMore.

Context `{Builtins} (env : environment).
Local Open Scope string_scope.

Lemma reachable_live_clocks_agree (w : world) :
  reachable env w -> live_clocks_agree (ftse_data w) (last_update_time w).
Proof.
  apply (reachable_holds_live env live_clocks_agree).
  - intros m [=].
  - intros v c cp t tp open m [= <-] _. reflexivity.
  - intros msg n m tp open _ d [= <-]. discriminate.
  - intros d lut k v Hk Hd m [= <-].
    rewrite !(lookup_insert_other d k _ v Hk) by (cbn; tauto).
    apply Hd. reflexivity.
Qed.

Lemma reachable_keys_present (w : world) :
  reachable env w -> keys_present (ftse_data w) (last_update_time w).
Proof.
  apply (reachable_holds_live env keys_present).
  - intros m [=].
  - intros v c cp t tp open m [= <-]. split; [|eexists; reflexivity].
    unfold snapshot_keys.
    repeat (apply Forall_cons; split; [eexists; reflexivity|]).
    apply Forall_nil. exact Logic.I.
  - intros msg n m tp open _ d [= <-]. split; [|eexists; reflexivity].
    unfold snapshot_keys.
    repeat (apply Forall_cons; split; [eexists; reflexivity|]).
    apply Forall_nil. exact Logic.I.
  - intros d lut k v Hk Hd m [= <-].
    destruct (Hd d eq_refl) as (Hkeys & ts & Hts).
    split.
    + rewrite Forall_forall in *. intros k' Hk'.
      rewrite (lookup_insert_other d k k' v Hk); [now apply Hkeys|].
      now apply list_elem_of_In.
    + exists ts. rewrite (lookup_insert_other d k _ v Hk) by (cbn; tauto).
      exact Hts.
Qed.

(** X16: in every state the server passes through, the derived price and
    the derived offset of the current snapshot are those of the price in
    that same snapshot. *)
Theorem derived_fields_consistent (w : world) (data : gmap string pyval) :
  reachable env w -> ftse_data w = Some data ->
  exists price,
    data !! "price" = Some (VNum price) /\
    data !! "tx_price" = Some (VNum (calculate_tx_price price)) /\
    data !! "tx_change" = Some (VNum (calculate_tx_change price)).
Proof. intros Hr Hd. exact (reachable_derived_from_price env w Hr data Hd). Qed.

(** X17: in every state the server passes through, the current snapshot is
    for the index 'TWN' / '富時台指' and its source is either the live one
    or the default one; a snapshot of the default source has the default
    price, change and percent and carries an error. *)
Theorem snapshot_provenance (w : world) (data : gmap string pyval) :
  reachable env w -> ftse_data w = Some data ->
  data !! "code" = Some (VStr "TWN") /\
  data !! "name" = Some (VStr "富時台指") /\
  (data !! "source" = Some (VStr "HiStock網站") \/
   (data !! "source" = Some (VStr "預設數據") /\
    data !! "price" = Some (VNum 1637.5) /\
    data !! "change" = Some (VNum (-68.3)) /\
    data !! "changePercent" = Some (VNum (-4.0)) /\
    is_Some (data !! "error"))).
Proof. intros Hr Hd. exact (reachable_provenance env w Hr data Hd). Qed.

(** X18: for a live snapshot the capture time is the last write time, so
    the fallback handler reuses it exactly when its capture time is less
    than 300 seconds before the handler's reading of the clock. *)
Theorem live_snapshot_window (w : world) (data : gmap string pyval)
    (ts : Q) (msg : string) :
  reachable env w -> ftse_data w = Some data ->
  data !! "source" = Some (VStr "HiStock網站") ->
  data !! "timestamp" = Some (VNum ts) ->
  last_update_time w = ts /\
  (fst (handle_data_error env msg w) = Ok true <->
   time_time env (ticks w) - ts < 300).
Proof.
  intros Hr Hd Hsrc Hts.
  pose proof (reachable_live_clocks_agree w Hr data Hd Hsrc) as Hlut.
  rewrite Hts in Hlut. injection Hlut as Hlut.
  split; [symmetry; exact Hlut|].
  pose proof (truthy_lookup data _ _ Hts) as Htruthy.
  destruct (Qlt_le_dec (time_time env (ticks w) - ts) 300) as [Hage|Hage].
  - rewrite (handle_data_error_reuse env msg w data Hd Htruthy)
      by (rewrite <- Hlut; exact Hage).
    cbn [fst]. tauto.
  - rewrite handle_data_error_expired, use_default_run;
      [|rewrite Hd; exact Htruthy | rewrite <- Hlut; exact Hage].
    cbn [fst]. split; [discriminate | lra].
Qed.

(** X19: in every state the server passes through, the current snapshot
    has all eleven keys it was built with, so reading any of them never
    raises KeyError, and the value under ['timestamp'] is a number. *)
Theorem snapshot_keys_always_present (w : world) (data : gmap string pyval) :
  reachable env w -> ftse_data w = Some data ->
  (forall k, In k snapshot_keys ->
     exists v, subscript (Some data) k = Ok v) /\
  exists ts : Q, subscript (Some data) "timestamp" = Ok (VNum ts).
Proof.
  intros Hr Hd.
  destruct (reachable_keys_present w Hr data Hd) as (Hkeys & ts & Hts).
  split.
  - intros k Hk. rewrite Forall_forall in Hkeys.
    destruct (Hkeys k) as [v Hv]; [now apply list_elem_of_In|].
    exists v. unfold subscript. now rewrite Hv.
  - exists ts. unfold subscript. now rewrite Hts.
Qed.

End SnapshotInvariantsMore.

(** ** The read path and the API handler never fail *)

Section ReadMore.

Context `{Builtins} (env : environment).
Local Open Scope string_scope.

Lemma total_ret {A} (P : world -> Prop) (a : A) (Q : A -> world -> Prop) :
  (forall w, P w -> Q a w) -> total P (ret a) Q.
Proof. intros HQ w Hw. exists a, w. split; [reflexivity | auto]. Qed.

Lemma total_bind {A B} (P : world -> Prop) (c : M A) (k : A -> M B)
    (Q : A -> world -> Prop) (R : B -> world -> Prop) :
  total P c Q -> (forall a, total (Q a) (k a) R) -> total P (bind c k) R.
Proof.
  intros Hc Hk w Hw. destruct (Hc w Hw) as (a & w' & E & HQ).
  destruct (Hk a w' HQ) as (b & w'' & E' & HR).
  exists b, w''. unfold bind. rewrite E. auto.
Qed.

Lemma total_weaken {A} (P P' : world -> Prop) (c : M A)
    (Q Q' : A -> world -> Prop) :
  total P c Q -> (forall w, P' w -> P w) ->
  (forall a w, Q a w -> Q' a w) -> total P' c Q'.
Proof.
  intros Hc HP HQ w Hw. destruct (Hc w (HP w Hw)) as (a & w' & E & Ha).
  exists a, w'. auto.
Qed.

Lemma total_try {A} (P : world -> Prop) (body : M A)
    (handler : exn -> option (M A)) (Q : A -> world -> Prop) :
  total P body Q -> total P (try_except body handler) Q.
Proof.
  intros Hb w Hw. destruct (Hb w Hw) as (a & w' & E & Ha).
  exists a, w'. unfold try_except. rewrite E. auto.
Qed.

(** A property of the store alone is kept by a reading. *)
Lemma total_now_epoch (S : option (gmap string pyval) -> Prop) :
  total (fun w => S (ftse_data w)) (now_epoch env)
        (fun _ w => S (ftse_data w)).
Proof. intros w Hw. eexists _, _. split; [reflexivity | exact Hw]. Qed.

Lemma total_server_strftime (S : option (gmap string pyval) -> Prop) :
  total (fun w => S (ftse_data w)) (server_strftime env)
        (fun _ w => S (ftse_data w)).
Proof. intros w Hw. eexists _, _. split; [reflexivity | exact Hw]. Qed.

Lemma total_is_market_hours (S : option (gmap string pyval) -> Prop) :
  total (fun w => S (ftse_data w)) (is_market_hours env)
        (fun _ w => S (ftse_data w)).
Proof. intros w Hw. eexists _, _. split; [reflexivity | exact Hw]. Qed.

Lemma has_timestamp_insert (m : gmap string pyval) (k : string) (v : pyval) :
  k <> "timestamp" -> has_timestamp m -> has_timestamp (<[k := v]> m).
Proof.
  intros Hk [ts Hts]. exists ts. rewrite lookup_insert_ne; auto.
Qed.

Lemma total_refresh :
  total timestamp_sound (get_ftse_data_from_histock env)
        (fun _ w => snapshot_ready w).
Proof.
  intros w Hw.
  destruct (fetch_and_update_outcome env w)
    as [(v & c & cp & Hok) | (e & Hraise)].
  - unfold get_ftse_data_from_histock, try_except. rewrite Hok.
    rewrite update_ftse_data_run. cbn [snd].
    eexists _, _. split; [reflexivity|].
    eexists. split; [reflexivity|]. eexists. reflexivity.
  - destruct (failed_refresh_is_fallback env w _ e Hraise) as [_ ->].
    destruct (handle_data_error_paths env (error_message_of e) (tick (tick w)))
      as [(data & Hd & _ & _ & ->) | (w0 & _ & ->)].
    + eexists _, _. split; [reflexivity|].
      eexists. split; [reflexivity|].
      apply has_timestamp_insert; [discriminate|]. now apply Hw.
    + rewrite use_default_run. eexists _, _. split; [reflexivity|].
      eexists. split; [reflexivity|]. eexists. reflexivity.
Qed.

Lemma truthy_is_some (d : option (gmap string pyval)) :
  truthy d = true -> exists m, d = Some m.
Proof. destruct d; [eauto | discriminate]. Qed.

Lemma total_get_ftse_data :
  total timestamp_sound (get_ftse_data env)
        (fun r w => r = ftse_data w /\ snapshot_ready w).
Proof.
  intros w Hw. unfold get_ftse_data, bind, get_world.
  destruct (truthy (ftse_data w)) eqn:Ht.
  - destruct (truthy_is_some _ Ht) as [m Hm].
    unfold is_market_hours, bind, get_taipei_time, ret, now_epoch.
    cbn [tick ticks last_update_time].
    destruct (Qltb _ _); cbn [start_refresh_thread ret];
      (eexists _, _; split; [reflexivity|]; cbn [ftse_data];
       split; [reflexivity|]; exists m; split; [exact Hm | now apply Hw]).
  - destruct (total_refresh w Hw) as (b & w' & -> & Hready).
    eexists _, _. split; [reflexivity|]. split; [reflexivity | exact Hready].
Qed.

(** X20: [get_ftse_data] never raises and never returns None: it returns
    the snapshot that is current when it ends, starts at most one thread,
    and changes the store only when there was no snapshot. *)
Theorem get_ftse_data_returns_snapshot (w : world) :
  exists data w',
    get_ftse_data env w = (Ok (Some data), w') /\
    ftse_data w' = Some data /\
    (threads w' <= S (threads w))%nat /\
    (truthy (ftse_data w) = true ->
     ftse_data w' = ftse_data w /\
     last_update_time w' = last_update_time w).
Proof.
  unfold get_ftse_data, bind, get_world.
  destruct (truthy (ftse_data w)) eqn:Ht.
  - destruct (truthy_is_some _ Ht) as [m Hm].
    unfold is_market_hours, bind, get_taipei_time, ret, now_epoch.
    cbn [tick ticks last_update_time].
    destruct (Qltb _ _); cbn [start_refresh_thread ret];
      (exists m; eexists; rewrite Hm; split; [reflexivity|];
       cbn [ftse_data threads last_update_time]; repeat split; auto; lia).
  - destruct (refresh_leaves_snapshot env w) as (b & w' & Hrun & Ht').
    destruct (truthy_is_some _ Ht') as [m Hm].
    exists m, w'. rewrite Hrun. unfold ret. rewrite Hm.
    split; [reflexivity|]. split; [reflexivity|].
    split; [|discriminate].
    destruct (refresh_outcome env w) as [(w1 & E & _) | (msg & E)].
    + rewrite E in Hrun. injection Hrun as _ <-.
      revert E. unfold get_ftse_data_from_histock, try_except.
      destruct (fetch_and_update_outcome env w)
        as [(v & c & cp & ->) | (e & ->)].
      * rewrite update_ftse_data_run. intros [= <-]. cbn [threads tick]. lia.
      * destruct e; intros E;
          match type of E with
          | handle_data_error _ ?m ?w0 = _ =>
              destruct (handle_data_error_result env w0 m)
                as (b' & w2 & d2 & E2 & _ & _ & Hth);
              rewrite E2 in E; injection E as _ <-;
              rewrite Hth; cbn [threads tick]; lia
          end.
    + rewrite E in Hrun.
      destruct (handle_data_error_result env (tick (tick w)) msg)
        as (b' & w2 & d2 & E2 & _ & _ & Hth).
      rewrite E2 in Hrun. injection Hrun as _ <-.
      rewrite Hth. cbn [threads tick]. lia.
Qed.

End ReadMore.

Section ApiMore.

Context `{Builtins} (env : environment).
Local Open Scope string_scope.

Lemma total_setitem (S : gmap string pyval -> Prop) (k : string) (v : pyval) :
  k <> "timestamp" ->
  (forall m, S m -> S (<[k := v]> m)) ->
  total (fun w => exists m, ftse_data w = Some m /\ has_timestamp m /\ S m)
        (setitem k v)
        (fun _ w => exists m, ftse_data w = Some m /\ has_timestamp m /\
                              S m /\ m !! k = Some v).
Proof.
  intros Hk HS w (m & Hm & Hts & Hs).
  unfold setitem, bind, get_world. rewrite Hm.
  eexists _, _. split; [reflexivity|]. cbn [ftse_data].
  eexists. split; [reflexivity|].
  split; [now apply has_timestamp_insert|].
  split; [now apply HS | apply lookup_insert_eq].
Qed.

Lemma snapshot_ready_sound (w : world) : snapshot_ready w -> timestamp_sound w.
Proof. intros (m & Hm & Hts) m' Hm'. rewrite Hm in Hm'. now injection Hm' as <-. Qed.

(** The staleness test of the handler, on the snapshot it was given. *)
Lemma total_api_stale (force_refresh : bool) (data : option (gmap string pyval)) :
  total (fun w => data = ftse_data w /\ snapshot_ready w)
    (if force_refresh then ret true
     else
       do now <- now_epoch env;
       do ts <- lift (subscript data "timestamp");
       match ts with
       | VNum ts =>
           do open <- is_market_hours env;
           ret (fltb (if open then 20 else 300) (fsub now ts))
       | _ => raise (OtherException "unsupported operand type(s) for -")
       end)
    (fun _ w => snapshot_ready w).
Proof.
  intros w (Hdata & m & Hm & ts & Hts).
  assert (snapshot_ready w) as Hready by (exists m; split; eauto; now exists ts).
  destruct force_refresh.
  - eexists _, _. split; [reflexivity | exact Hready].
  - unfold bind, now_epoch, lift, subscript. cbn [tick].
    rewrite Hdata, Hm, Hts.
    unfold is_market_hours, bind, get_taipei_time, ret. cbn [tick ticks].
    eexists _, _. split; [reflexivity|].
    exists m. cbn [ftse_data]. split; [exact Hm | now exists ts].
Qed.

Lemma total_api_refresh (stale : bool) :
  total snapshot_ready
    (if stale then
       run get_ftse_data_from_histock env;
       run get_ftse_data env;
       ret tt
     else ret tt)
    (fun _ w => snapshot_ready w).
Proof.
  destruct stale; [|now apply total_ret].
  eapply total_bind with (Q := fun _ w => snapshot_ready w).
  { eapply total_weaken; [apply total_refresh | apply snapshot_ready_sound |].
    intros a w Hw. exact Hw. }
  intros _. eapply total_bind with (Q := fun _ w => snapshot_ready w).
  { eapply total_weaken;
      [apply total_get_ftse_data | apply snapshot_ready_sound |].
    intros a w [_ Hw]. exact Hw. }
  intros _. now apply total_ret.
Qed.

Lemma api_get_ftse_data_total (force_refresh : bool) :
  total timestamp_sound (api_get_ftse_data env force_refresh)
    (fun r w =>
       snd r = 200%Z /\ ftse_data w = Some (fst r) /\
       has_timestamp (fst r) /\
       (exists n, fst r !! "request_time" = Some (VNum (time_time env n))) /\
       (exists n, fst r !! "server_time" = Some (VStr (local_strftime env n)))).
Proof.
  unfold api_get_ftse_data. apply total_try.
  eapply total_bind; [apply total_get_ftse_data|]. intros data.
  eapply total_bind; [apply total_api_stale|]. intros stale.
  eapply total_bind; [apply total_api_refresh|]. intros ?.
  intros w (m & Hm & Hts).
  unfold setitem, now_epoch, get_world, server_strftime, ret, bind.
  cbn [tick ticks ftse_data set_ftse_data]. rewrite Hm.
  cbn [tick ticks ftse_data set_ftse_data default].
  eexists _, _. split; [reflexivity|]. cbn [fst snd ftse_data default].
  unfold id.
  split; [reflexivity|]. split; [reflexivity|].
  split; [do 2 (apply has_timestamp_insert; [discriminate|]); exact Hts|].
  split.
  - exists (ticks w). rewrite lookup_insert_ne by discriminate.
    apply lookup_insert_eq.
  - exists (S (ticks w)). apply lookup_insert_eq.
Qed.

(** X21: in every state the server passes through, the API handler answers
    with status 200, never with the error payload.  The payload is the
    current snapshot of the store itself, to which the handler has added
    ['request_time'] and ['server_time']: the two keys stay in the shared
    snapshot after the call. *)
Theorem api_never_fails (w : world) (force_refresh : bool) :
  reachable env w ->
  exists payload w',
    api_get_ftse_data env force_refresh w = (Ok (payload, 200%Z), w') /\
    ftse_data w' = Some payload /\
    (exists n, payload !! "request_time" = Some (VNum (time_time env n))) /\
    (exists n, payload !! "server_time" = Some (VStr (local_strftime env n))).
Proof.
  intros Hr.
  assert (timestamp_sound w) as Hsound.
  { intros m Hm. exact (proj2 (reachable_keys_present env w Hr m Hm)). }
  destruct (api_get_ftse_data_total force_refresh w Hsound)
    as ([payload status] & w' & E & Hs & Hd & _ & Hrt & Hst).
  cbn [fst snd] in *. subst status. exists payload, w'. auto.
Qed.

(** X22: one turn of the background loop never raises, so the handler of
    the loop, with its five-second pause, is never entered; the turn leaves
    a snapshot in the store. *)
Theorem background_turn_never_raises (w : world) :
  exists b w' data,
    background_turn env w = (Ok b, w') /\ ftse_data w' = Some data.
Proof.
  change (background_turn env w)
    with (get_ftse_data_from_histock env (tick w)).
  destruct (refresh_leaves_snapshot env (tick w)) as (b & w' & -> & Ht).
  destruct (truthy_is_some _ Ht) as [m Hm]. exists b, w', m. auto.
Qed.

End ApiMore.

(** ** Removing a character from a text *)

Section TextMore.

Local Open Scope string_scope.

Lemma replace_char_step (c a : ascii) (s : string) :
  Str.replace (String c "") "" (String a s) =
    if Ascii.eqb c a then Str.replace (String c "") "" s
    else String a (Str.replace (String c "") "" s).
Proof.
  unfold Str.replace. cbn [Str.replace_go String.prefix String.length Nat.sub].
  destruct (ascii_dec c a) as [->|N].
  - rewrite Ascii.eqb_refl. destruct s; reflexivity.
  - destruct (Ascii.eqb c a) eqn:E; [apply Ascii.eqb_eq in E; contradiction|].
    reflexivity.
Qed.

Lemma contains_char_step (c a : ascii) (s : string) :
  Str.contains (String c "") (String a s) =
    Ascii.eqb c a || Str.contains (String c "") s.
Proof.
  cbn [Str.contains String.prefix].
  destruct (ascii_dec c a) as [->|N].
  - rewrite Ascii.eqb_refl. destruct s; reflexivity.
  - destruct (Ascii.eqb c a) eqn:E; [apply Ascii.eqb_eq in E; contradiction|].
    reflexivity.
Qed.

(** X23: removing a one-byte character, as [replace(',', '')] and
    [replace('%', '')] do, leaves no occurrence of it, and leaves a text
    without that character as it is. *)
Theorem replace_removes_char (c : ascii) (s : string) :
  Str.contains (String c "") (Str.replace (String c "") "" s) = false /\
  (Str.contains (String c "") s = false ->
   Str.replace (String c "") "" s = s).
Proof.
  induction s as [|a s [IH1 IH2]].
  - split; reflexivity.
  - rewrite replace_char_step, contains_char_step.
    destruct (Ascii.eqb c a) eqn:E.
    + split; [exact IH1 | discriminate].
    + rewrite contains_char_step, E. cbn [orb].
      split; [exact IH1|]. intros Hs. now rewrite IH2.
Qed.

Lemma replace_removes_char_witness :
  Str.replace "," "" "1637.50" = "1637.50".
Proof. apply (replace_removes_char ","%char "1637.50"). reflexivity. Defined.

End TextMore.

(** ** The further properties on runs of the server *)

Section MoreRuns.

Local Open Scope string_scope.
Local Existing Instance decimal_builtins.

Lemma later_field_failure_falls_back_witness :
  let pi := region (span "1,637.13" "clr-gr") (span "--" "clr-gr")
              (span "-4.00%" "clr-gr") in
  let env := scenario 1200 (Soup (Some pi)) in
  let w := first_fetch 1200 (Soup (Some pi)) in
  exists msg, In msg change_messages /\
    get_ftse_data_from_histock env w =
      handle_data_error env msg (tick (tick w)).
Proof.
  intros pi env w.
  apply (later_field_failure_falls_back env w pi 1637.25);
    reflexivity.
Defined.

Lemma successful_refresh_witness :
  let env := scenario 1200 (RequestFailed "timeout") in
  exists w' data,
    get_ftse_data_from_histock env init_world = (Ok true, w') /\
    ftse_data w' = Some data /\
    data !! "price" = Some (VNum 1637.25) /\
    data !! "error" = None.
Proof.
  intros env.
  destruct (successful_refresh env init_world
              (region (span "1,637.13" "clr-gr") (span "▼68.30" "clr-gr")
                 (span "-4.00%" "clr-gr"))
              1637.25 (- 68.30) (-4.00))
    as (w' & data & E & Hd & Hp & _ & _ & _ & _ & _ & He & _);
    try reflexivity.
  exists w', data. auto.
Defined.

(** A refresh at 1080, a failure read at 1280 that reuses the snapshot, a
    failure read at 1400 that does not. *)
Lemma reuse_does_not_extend_window_witness :
  let env := ramp 40 (RequestFailed "timeout") in
  let w := tick (tick (snd (get_ftse_data_from_histock env init_world))) in
  let w1 := snd (handle_data_error env "first" w) in
  exists w3 data,
    handle_data_error env "second" (tick (tick w1)) = (Ok false, w3) /\
    ftse_data w3 = Some data /\
    data !! "source" = Some (VStr "預設數據").
Proof.
  intros env w w1.
  apply (reuse_does_not_extend_window env w w1 (tick (tick w1)) "first").
  - reflexivity.
  - reflexivity.
  - reflexivity.
  - vm_compute. discriminate.
Defined.

(** A refresh at 1020, failures read at 1070 and at 1100. *)
Lemma second_failure_overwrites_error_witness :
  let env := ramp 10 (RequestFailed "timeout") in
  let w := tick (tick (snd (get_ftse_data_from_histock env init_world))) in
  let w1 := snd (handle_data_error env "first" w) in
  exists w3,
    handle_data_error env "second" (tick (tick w1)) = (Ok true, w3) /\
    ftse_data w3 =
      Some (<["error" := VStr "second"]> (default ∅ (ftse_data w))) /\
    last_update_time w3 = last_update_time w.
Proof.
  intros env w w1.
  apply (second_failure_overwrites_error env w w1 (tick (tick w1))
           (default ∅ (ftse_data w)) "first" "second").
  - reflexivity.
  - reflexivity.
  - reflexivity.
  - reflexivity.
  - vm_compute. reflexivity.
Defined.

(** A refresh at 1180, a failure read at 1630 that stores the default
    snapshot at 1990, a failure read at 2260 that reuses it. *)
Lemma default_snapshot_is_reused_witness :
  let env := ramp 90 (RequestFailed "timeout") in
  let w := tick (tick (snd (get_ftse_data_from_histock env init_world))) in
  let w1 := snd (handle_data_error env "first" w) in
  exists w3 data,
    handle_data_error env "second" (tick (tick w1)) = (Ok true, w3) /\
    ftse_data w3 = Some data /\
    data !! "source" = Some (VStr "預設數據") /\
    data !! "price" = Some (VNum 1637.5) /\
    data !! "error" = Some (VStr "second").
Proof.
  intros env w w1.
  apply (default_snapshot_is_reused env w w1 (tick (tick w1)) "first").
  - reflexivity.
  - reflexivity.
  - reflexivity.
  - vm_compute. reflexivity.
Defined.

Lemma derived_fields_consistent_witness :
  let w := first_fetch 1200 (RequestFailed "timeout") in
  exists price,
    default ∅ (ftse_data w) !! "price" = Some (VNum price) /\
    default ∅ (ftse_data w) !! "tx_price"
      = Some (VNum (calculate_tx_price price)) /\
    default ∅ (ftse_data w) !! "tx_change"
      = Some (VNum (calculate_tx_change price)).
Proof.
  intros w.
  apply (derived_fields_consistent (scenario 1200 (RequestFailed "timeout")) w).
  - apply first_fetch_reachable.
  - reflexivity.
Defined.

Lemma snapshot_provenance_witness :
  let env := scenario 1400 (RequestFailed "timeout") in
  let w := snd (get_ftse_data_from_histock env
                  (first_fetch 1400 (RequestFailed "timeout"))) in
  default ∅ (ftse_data w) !! "code" = Some (VStr "TWN").
Proof.
  intros env w.
  apply (snapshot_provenance env w (default ∅ (ftse_data w))).
  - apply reach_refresh, first_fetch_reachable.
  - reflexivity.
Defined.

Lemma live_snapshot_window_witness :
  let env := scenario 1200 (RequestFailed "timeout") in
  let w := first_fetch 1200 (RequestFailed "timeout") in
  last_update_time w = 1000 /\
  (fst (handle_data_error env "timeout" w) = Ok true <->
   time_time env (ticks w) - 1000 < 300).
Proof.
  intros env w.
  apply (live_snapshot_window env w (default ∅ (ftse_data w)) 1000 "timeout").
  - apply first_fetch_reachable.
  - reflexivity.
  - reflexivity.
  - reflexivity.
Defined.

Lemma snapshot_keys_always_present_witness :
  let w := first_fetch 1200 (RequestFailed "timeout") in
  exists ts : Q, subscript (ftse_data w) "timestamp" = Ok (VNum ts).
Proof.
  intros w.
  apply (snapshot_keys_always_present
           (scenario 1200 (RequestFailed "timeout")) w
           (default ∅ (ftse_data w))).
  - apply first_fetch_reachable.
  - reflexivity.
Defined.

Lemma api_never_fails_witness :
  let env := scenario 1200 (RequestFailed "timeout") in
  let w := first_fetch 1200 (RequestFailed "timeout") in
  exists payload w',
    api_get_ftse_data env false w = (Ok (payload, 200%Z), w') /\
    ftse_data w' = Some payload /\
    (exists n, payload !! "request_time" = Some (VNum (time_time env n))) /\
    (exists n, payload !! "server_time" = Some (VStr (local_strftime env n))).
Proof.
  intros env w. apply (api_never_fails env w false).
  apply first_fetch_reachable.
Defined.

(** The run of the API handler in that state: the read starts a thread, the
    handler refreshes, the fetch fails and the snapshot is reused. *)
Example api_after_failed_fetch :
  let env := scenario 1200 (RequestFailed "timeout") in
  let w := first_fetch 1200 (RequestFailed "timeout") in
  let r := api_get_ftse_data env false w in
  default ∅ (ftse_data (snd r)) !! "error"
    = Some (VStr "網絡錯誤: timeout") /\
  default ∅ (ftse_data (snd r)) !! "price" = Some (VNum 1637.25) /\
  threads (snd r) = 2%nat.
Proof. repeat split; reflexivity. Qed.

End MoreRuns.

